(** * ip-dns-check.py: a shallow embedding and its specification

    The script reads hostnames, resolves each one and writes a report.
    Its external calls (the two resolvers, [socket.inet_aton], [open],
    the writes to the report, [datetime.now]) are fields of a [World];
    its effects (console output, file writes, calls of a resolver) are
    events appended to a trace; its
    exceptions are values of [exn] propagated by an error monad, with
    Python's rules for [try]/[except] written out. *)

From Stdlib Require Import ZArith List Bool Lia.
From Stdlib Require Import Strings.String Strings.Ascii Numbers.DecimalString.
Import ListNotations.

Open Scope list_scope.
Open Scope string_scope.

(** ** Python strings

    A [str] is modelled as a [string] whose characters are the code points
    below 256. *)

(** [str.isspace] on one character, for the code points below 256. *)
Definition isspace (c : ascii) : bool :=
  let n := nat_of_ascii c in
  (((9 <=? n) && (n <=? 13)) || ((28 <=? n) && (n <=? 32))
   || (n =? 133) || (n =? 160))%nat.

(** [bool(s)] for a string: the empty string is falsy. *)
Definition truthy (s : string) : bool :=
  match s with
  | EmptyString => false
  | String _ _ => true
  end.

Fixpoint lstrip (s : string) : string :=
  match s with
  | EmptyString => EmptyString
  | String c s' => if isspace c then lstrip s' else s
  end.

Fixpoint rstrip (s : string) : string :=
  match s with
  | EmptyString => EmptyString
  | String c s' =>
      match rstrip s' with
      | EmptyString => if isspace c then EmptyString else String c EmptyString
      | r => String c r
      end
  end.

(** [s.strip()] *)
Definition strip (s : string) : string := rstrip (lstrip s).

(** [s * n] *)
Fixpoint str_repeat (s : string) (n : nat) : string :=
  match n with
  | O => EmptyString
  | S n' => s ++ str_repeat s n'
  end.

(** [str(n)] for an [int]. *)
Definition str_of_int (n : Z) : string := NilZero.string_of_int (Z.to_int n).

(** [''.join(parts)] *)
Definition join (parts : list string) : string :=
  fold_right String.append EmptyString parts.

(** Every character of [s] satisfies [p]. *)
Fixpoint str_forallb (p : ascii -> bool) (s : string) : bool :=
  match s with
  | EmptyString => true
  | String c s' => p c && str_forallb p s'
  end.

Definition newline : ascii := "010"%char.

(** Iterating a text file: the content is cut after each newline, every
    line keeps its terminator, and a last line without one is still a
    line.  [cur] is the part of the current line read so far. *)
Fixpoint readlines_from (cur : string) (s : string) : list string :=
  match s with
  | EmptyString =>
      match cur with
      | EmptyString => []
      | _ => [cur]
      end
  | String c s' =>
      if Ascii.eqb c newline
      then (cur ++ String c EmptyString) :: readlines_from EmptyString s'
      else readlines_from (cur ++ String c EmptyString) s'
  end.

Definition readlines (content : string) : list string :=
  readlines_from EmptyString content.

(** ** Exceptions *)

(** The exception classes the script can meet, with Python's hierarchy.
    [NXDOMAIN], [NoAnswer] and [Timeout] are the classes that the names
    [dns.resolver.NXDOMAIN], [dns.resolver.NoAnswer] and
    [dns.resolver.Timeout] denote in the installed dnspython. *)
Inductive pyclass : Type :=
| BaseException
| KeyboardInterrupt
| Exception
| NameError
| IndexError
| ValueError
| OSError
| FileNotFoundError
| PermissionError
| gaierror
| DNSException
| NXDOMAIN
| NoAnswer
| Timeout
| LifetimeTimeout
| NoNameservers.

Definition pyclass_eqb (a b : pyclass) : bool :=
  match a, b with
  | BaseException, BaseException | KeyboardInterrupt, KeyboardInterrupt
  | Exception, Exception | NameError, NameError | IndexError, IndexError
  | ValueError, ValueError | OSError, OSError
  | FileNotFoundError, FileNotFoundError
  | PermissionError, PermissionError | gaierror, gaierror
  | DNSException, DNSException | NXDOMAIN, NXDOMAIN | NoAnswer, NoAnswer
  | Timeout, Timeout | LifetimeTimeout, LifetimeTimeout
  | NoNameservers, NoNameservers => true
  | _, _ => false
  end.

(** The direct base class. *)
Definition base (c : pyclass) : option pyclass :=
  match c with
  | BaseException => None
  | KeyboardInterrupt => Some BaseException
  | Exception => Some BaseException
  | NameError | IndexError | ValueError | OSError | DNSException =>
      Some Exception
  | FileNotFoundError | PermissionError | gaierror => Some OSError
  | NXDOMAIN | NoAnswer | Timeout | NoNameservers => Some DNSException
  | LifetimeTimeout => Some Timeout
  end.

Fixpoint issubclass_fuel (fuel : nat) (c target : pyclass) : bool :=
  pyclass_eqb c target ||
  match fuel with
  | O => false
  | S fuel' =>
      match base c with
      | None => false
      | Some b => issubclass_fuel fuel' b target
      end
  end.

(** The hierarchy is four levels deep below [BaseException]. *)
Definition issubclass (c target : pyclass) : bool :=
  issubclass_fuel 4 c target.

(** An exception instance: its class and [str(e)]. *)
Record exn : Type := Exn { exn_class : pyclass; exn_str : string }.

Definition isinstance (e : exn) (c : pyclass) : bool :=
  issubclass (exn_class e) c.

(** ** Effects *)

Inductive event : Type :=
| Print (s : string)                     (* print(s) *)
| Eprint (s : string)                    (* print(s, file=sys.stderr) *)
| FOpen (path : string)                  (* open(path, 'w') succeeded *)
| FWrite (path : string) (s : string)    (* f.write(s) returned *)
| Query (hostname : string) (server : option string).
    (* resolver.resolve(hostname, 'A') with that nameserver, or
       socket.gethostbyname(hostname) when there is none, is called *)

Definition trace : Type := list event.

(** How a computation ends: with a value, with an exception, or with
    [sys.exit(code)].  [sys.exit] raises [SystemExit], which no [except]
    clause of the script matches, so it is kept apart from [Raise]. *)
Inductive outcome (A : Type) : Type :=
| Ret (a : A)
| Raise (e : exn)
| Exit (code : Z).

Arguments Ret {A} a.
Arguments Raise {A} e.
Arguments Exit {A} code.

Definition M (A : Type) : Type := trace -> outcome A * trace.

Definition ret {A} (a : A) : M A := fun t => (Ret a, t).

Definition bind {A B} (m : M A) (f : A -> M B) : M B :=
  fun t =>
    match m t with
    | (Ret a, t') => f a t'
    | (Raise e, t') => (Raise e, t')
    | (Exit c, t') => (Exit c, t')
    end.

Notation "x <- m ;; k" := (bind m (fun x => k))
  (at level 61, m at next level, right associativity).
Notation "m ;; k" := (bind m (fun _ => k))
  (at level 61, right associativity).

Definition raise {A} (e : exn) : M A := fun t => (Raise e, t).
Definition sys_exit {A} (code : Z) : M A := fun t => (Exit code, t).
Definition emit (e : event) : M unit := fun t => (Ret tt, (t ++ [e])%list).
Definition print (s : string) : M unit := emit (Print s).
Definition eprint (s : string) : M unit := emit (Eprint s).

(** One [except <expr> as e: <handler>] clause.  The expression is
    evaluated when the clause is reached, and may itself raise. *)
Definition clause (A : Type) : Type := (M pyclass * (exn -> M A))%type.

(** The clauses are tried in order; an exception raised while a clause's
    expression is evaluated, or by a handler, leaves the statement. *)
Fixpoint handle {A} (e : exn) (cs : list (clause A)) : M A :=
  match cs with
  | [] => raise e
  | (cexpr, h) :: cs' =>
      fun t =>
        match cexpr t with
        | (Ret c, t') => if isinstance e c then h e t' else handle e cs' t'
        | (Raise e', t') => (Raise e', t')
        | (Exit code, t') => (Exit code, t')
        end
  end.

Definition try_except {A} (body : M A) (cs : list (clause A)) : M A :=
  fun t =>
    match body t with
    | (Raise e, t') => handle e cs t'
    | r => r
    end.

(** Python's [for x in xs: body]. *)
Fixpoint for_each {A} (xs : list A) (body : A -> M unit) : M unit :=
  match xs with
  | [] => ret tt
  | x :: xs' => body x ;; for_each xs' body
  end.

(** [sum(...)] over integers. *)
Definition py_sum (xs : list Z) : Z := fold_left Z.add xs 0%Z.

(** [len(xs)] *)
Definition len {A} (xs : list A) : Z := Z.of_nat (List.length xs).

(** ** The world outside the script *)

(** What an external call does: it returns or it raises. *)
Inductive answer (A : Type) : Type :=
| Returns (a : A)
| Raises (e : exn).

Arguments Returns {A} a.
Arguments Raises {A} e.

(** The resolvers and the output file may answer differently from one
    call to the next, so they see the trace so far.
    - [DNS_AVAILABLE]: whether [import dns.resolver] succeeded (lines
      12-16); when it did not, the name [dns] is unbound.
    - [resolver_setup server]: lines 33-34, [dns.resolver.Resolver()] and
      the assignment of [[server]] to its nameservers: [None] when both
      succeed, the exception when one raises (dnspython refuses what it
      does not read as an address).
    - [resolver_resolve t server hostname]: line 35, the call
      [resolver.resolve(hostname, 'A')] of a [Resolver] whose only
      nameserver is [server]; the string forms of the answers, in order.
    - [gethostbyname t hostname]: [socket.gethostbyname].
    - [inet_aton s]: whether [socket.inet_aton(s)] returns ([true]) or
      raises [socket.error] ([false]).
    - [open_read path]: [open(path, 'r')] and the reading of the whole
      file: its text as Python hands it over (decoded, line ends
      translated to newlines), or the exception raised by either.
    - [open_write path]: [open(path, 'w')]: [None] when it succeeds.
    - [write_error t path s]: [f.write(s)] on the file opened at [path]:
      [None] when it returns.
    - [close_error t path]: leaving the [with] block, which flushes and
      closes the file: [None] when it succeeds.
    - [stdout_mark_error]: [None] when standard output can encode the
      progress marks U+2713 and U+2717; otherwise the
      [UnicodeEncodeError] that printing one raises (an ASCII or cp1252
      standard output cannot encode them).
    - [now]: [datetime.now().strftime('%Y-%m-%d %H:%M:%S')]. *)
Record World : Type := {
  DNS_AVAILABLE : bool;
  resolver_setup : string -> option exn;
  resolver_resolve : trace -> string -> string -> answer (list string);
  gethostbyname : trace -> string -> answer string;
  inet_aton : string -> bool;
  open_read : string -> answer string;
  open_write : string -> option exn;
  write_error : trace -> string -> string -> option exn;
  close_error : trace -> string -> option exn;
  stdout_mark_error : option exn;
  now : string
}.

Definition lift {A} (r : answer A) : M A :=
  match r with
  | Returns a => ret a
  | Raises e => raise e
  end.

(** An optional string argument: [None] or a [str]. *)
Definition py_bool (o : option string) : bool :=
  match o with
  | None => false
  | Some s => truthy s
  end.

(** The string of an optional argument that is known to be one. *)
Definition the (o : option string) : string :=
  match o with
  | None => EmptyString
  | Some s => s
  end.

Definition nl : string := String newline EmptyString.

(** ** The script *)

(** The triple [(hostname, ip_address, success)]; [ip_address] holds the
    address or the error message. *)
Record LookupResult : Type := mkResult {
  hostname : string;
  ip_address : string;
  success : bool
}.

(** The parsed command line: [-i], [-o], [-v] and [-d]. *)
Record Args : Type := mkArgs {
  input : string;
  output : string;
  verbose : bool;
  dns : option string
}.

Section Script.

Variable w : World.

(** The expression [dns.resolver.<c>]: a [NameError] when the import
    failed. *)
Definition dns_resolver_attr (c : pyclass) : M pyclass :=
  if DNS_AVAILABLE w then ret c
  else raise (Exn NameError "name 'dns' is not defined").

(** Lines 33-35: the resolver is built and given its nameserver, then
    asked; [resolve] is not called when the first two lines raise. *)
Definition query_server (server host : string) : M (list string) :=
  match resolver_setup w server with
  | Some e => raise e
  | None =>
      fun t =>
        (emit (Query host (Some server)) ;;
         lift (resolver_resolve w t server host)) t
  end.

Definition query_system (host : string) : M string :=
  fun t =>
    (emit (Query host None) ;; lift (gethostbyname w t host)) t.

(** [answers[0]] *)
Definition first_answer (answers : list string) : M string :=
  match answers with
  | a :: _ => ret a
  | [] => raise (Exn IndexError "list index out of range")
  end.

(** Lines 30-53. *)
Definition perform_dns_lookup (host : string) (dns_server : option string)
  : M LookupResult :=
  try_except
    (if py_bool dns_server && DNS_AVAILABLE w then
       answers <- query_server (the dns_server) host ;;
       ip_address <- first_answer answers ;;
       ret (mkResult host ip_address true)
     else if py_bool dns_server && negb (DNS_AVAILABLE w) then
       ret (mkResult host
              "Error: dnspython not installed (required for custom DNS)"
              false)
     else
       ip_address <- query_system host ;;
       ret (mkResult host ip_address true))
    [ (dns_resolver_attr NXDOMAIN,
        fun _ => ret (mkResult host "Error: Domain does not exist" false));
      (dns_resolver_attr NoAnswer,
        fun _ => ret (mkResult host "Error: No A record found" false));
      (dns_resolver_attr Timeout,
        fun _ => ret (mkResult host "Error: DNS query timeout" false));
      (ret gaierror,
        fun e => ret (mkResult host ("Error: " ++ exn_str e) false));
      (ret Exception,
        fun e => ret (mkResult host ("Unexpected error: " ++ exn_str e)
                        false)) ].

(** Lines 66-79. *)
Definition read_hostnames (input_source : string) : M (list string) :=
  try_except
    (content <- lift (open_read w input_source) ;;
     ret (map strip
            (filter (fun line => truthy (strip line)) (readlines content))))
    [ (ret FileNotFoundError, fun _ => ret [input_source]);
      (ret Exception,
        fun e => eprint ("Error reading input: " ++ exn_str e) ;;
                 sys_exit 1%Z) ].

Definition fopen (path : string) : M unit :=
  match open_write w path with
  | None => emit (FOpen path)
  | Some e => raise e
  end.

(** [f.write(s)]: the string is recorded when the call returns. *)
Definition fwrite (path s : string) : M unit :=
  fun t =>
    match write_error w t path s with
    | None => emit (FWrite path s) t
    | Some e => (Raise e, t)
    end.

(** [with open(path, 'w') as f: body]: the file is closed when the block
    is left, whether it ends or raises, and closing can raise too. *)
Definition with_file {A} (path : string) (body : M A) : M A :=
  fopen path ;;
  fun t =>
    match body t with
    | (Ret a, t') =>
        match close_error w t' path with
        | None => (Ret a, t')
        | Some e => (Raise e, t')
        end
    | (Raise e, t') =>
        match close_error w t' path with
        | None => (Raise e, t')
        | Some e' => (Raise e', t')
        end
    | (Exit code, t') =>
        match close_error w t' path with
        | None => (Exit code, t')
        | Some e' => (Raise e', t')
        end
    end.

(** The line written for one result (line 104). *)
Definition result_line (r : LookupResult) : string :=
  hostname r ++ " / " ++ ip_address r ++ nl.

(** Lines 92-121. *)
Definition write_results (results : list LookupResult)
    (output_file : string) (verbose : bool) (dns_server : option string)
  : M unit :=
  try_except
    (with_file output_file
       (fwrite output_file ("DNS Lookup Results - " ++ now w ++ nl) ;;
        (if py_bool dns_server
         then fwrite output_file ("DNS Server: " ++ the dns_server ++ nl)
         else fwrite output_file ("DNS Server: System Default" ++ nl)) ;;
        fwrite output_file (str_repeat "=" 70 ++ nl ++ nl) ;;
        for_each results (fun r =>
          let line := result_line r in
          fwrite output_file line ;;
          if verbose then print (strip line) else ret tt) ;;
        let success_count :=
          py_sum (map (fun _ => 1%Z) (filter success results)) in
        fwrite output_file (nl ++ str_repeat "=" 70 ++ nl) ;;
        fwrite output_file
          ("Total lookups: " ++ str_of_int (len results) ++ nl) ;;
        fwrite output_file
          ("Successful: " ++ str_of_int success_count ++ nl) ;;
        fwrite output_file
          ("Failed: " ++ str_of_int (len results - success_count) ++ nl)) ;;
     print (nl ++ "Results written to: " ++ output_file))
    [ (ret Exception,
        fun e => eprint ("Error writing to output file: " ++ exn_str e) ;;
                 sys_exit 1%Z) ].

(** Lines 165-175. *)
Definition validate_dns (args : Args) : M unit :=
  if py_bool (dns args) then
    (if inet_aton w (the (dns args)) then ret tt
     else
       eprint ("Error: Invalid DNS server IP address: " ++ the (dns args)) ;;
       sys_exit 1%Z) ;;
    if negb (DNS_AVAILABLE w) then
      eprint "Warning: dnspython library not installed." ;;
      eprint "Install it with: pip install dnspython" ;;
      eprint ("Falling back to system DNS..." ++ nl)
    else ret tt
  else ret tt.

(** The progress marks U+2713 and U+2717, as their UTF-8 bytes. *)
Definition check_mark : string :=
  String "226"%char (String "156"%char (String "147"%char EmptyString)).
Definition cross_mark : string :=
  String "226"%char (String "156"%char (String "151"%char EmptyString)).

(** [print(s)] for a line that starts with a progress mark (line 196):
    it raises when standard output cannot encode the mark. *)
Definition print_marked (s : string) : M unit :=
  match stdout_mark_error w with
  | None => print s
  | Some e => raise e
  end.

(** Lines 189-196; [results] is the list built so far. *)
Fixpoint lookup_loop (dns_server : option string) (hostnames : list string)
    (results : list LookupResult) : M (list LookupResult) :=
  match hostnames with
  | [] => ret results
  | host :: rest =>
      result <- perform_dns_lookup host dns_server ;;
      let results := (results ++ [result])%list in
      let status := if success result then check_mark else cross_mark in
      print_marked (status ++ " " ++ host) ;;
      lookup_loop dns_server rest results
  end.

(** Lines 181-196 of [main]: the empty-list check and the lookups. *)
Definition main_resolve (args : Args) (hostnames : list string)
  : M (list LookupResult) :=
  (match hostnames with
   | [] => eprint "No hostnames found to lookup" ;; sys_exit 1%Z
   | _ => ret tt
   end) ;;
  let dns_info :=
    if py_bool (dns args)
    then " using DNS server " ++ the (dns args) else "" in
  print ("Performing DNS lookups for " ++ str_of_int (len hostnames)
         ++ " hostname(s)" ++ dns_info ++ "..." ++ nl) ;;
  lookup_loop (dns args) hostnames [].

(** Lines 164-196 of [main]: everything up to the end of the lookups. *)
Definition main_lookups (args : Args) : M (list LookupResult) :=
  validate_dns args ;;
  print ("Reading hostnames from: " ++ input args) ;;
  hostnames <- read_hostnames (input args) ;;
  main_resolve args hostnames.

(** Line 202. *)
Definition failed_count (results : list LookupResult) : Z :=
  py_sum (map (fun _ => 1%Z) (filter (fun r => negb (success r)) results)).

(** Lines 164-203: [main] from the point where [parser.parse_args()]
    (line 162) has returned [args].  What argparse does with the command
    line, its exit with code 2 on a usage error and with 0 on [--help]
    included, comes before and is not part of this function. *)
Definition main (args : Args) : M unit :=
  results <- main_lookups args ;;
  write_results results (output args) (verbose args) (dns args) ;;
  sys_exit (if (failed_count results =? 0)%Z then 0%Z else 1%Z).

End Script.

(** ** Observations on a trace *)

(** The strings written to [path], in order, since it was last opened. *)
Fixpoint file_writes (path : string) (t : trace) (acc : list string)
  : list string :=
  match t with
  | [] => acc
  | FOpen p :: t' =>
      file_writes path t' (if String.eqb p path then [] else acc)
  | FWrite p s :: t' =>
      file_writes path t' (if String.eqb p path then (acc ++ [s])%list else acc)
  | _ :: t' => file_writes path t' acc
  end.

(** A line is blank when all its characters are whitespace. *)
Definition blank (line : string) : bool := str_forallb isspace line.

(** ** IPv4 addresses as text *)

Fixpoint split_on (sep : ascii) (cur s : string) : list string :=
  match s with
  | EmptyString => [cur]
  | String c s' =>
      if Ascii.eqb c sep then cur :: split_on sep EmptyString s'
      else split_on sep (cur ++ String c EmptyString) s'
  end.

Definition is_digit (c : ascii) : bool :=
  let n := nat_of_ascii c in ((48 <=? n) && (n <=? 57))%nat.

Definition is_octal_digit (c : ascii) : bool :=
  let n := nat_of_ascii c in ((48 <=? n) && (n <=? 55))%nat.

Definition is_hex_digit (c : ascii) : bool :=
  let n := nat_of_ascii c in
  (((48 <=? n) && (n <=? 57)) || ((65 <=? n) && (n <=? 70))
   || ((97 <=? n) && (n <=? 102)))%nat.

(** The value of a digit, in any base up to 16. *)
Definition digit_value (c : ascii) : N :=
  let n := N_of_ascii c in
  if (n <=? 57)%N then (n - 48)%N
  else if (n <=? 70)%N then (n - 55)%N
  else (n - 87)%N.

Fixpoint number_value (radix : N) (s : string) (acc : N) : N :=
  match s with
  | EmptyString => acc
  | String c s' => number_value radix s' (radix * acc + digit_value c)%N
  end.

(** A part of an address read as the C library's [strtoul] reads it with
    base 0, when it takes the whole part: [0x] and hexadecimal digits, or
    [0] and octal digits, or decimal digits. *)
Definition c_number (part : string) : option N :=
  match part with
  | EmptyString => None
  | String c rest =>
      if Ascii.eqb c "0" then
        match rest with
        | EmptyString => Some 0%N
        | String x digits =>
            if Ascii.eqb x "x" || Ascii.eqb x "X" then
              if truthy digits && str_forallb is_hex_digit digits
              then Some (number_value 16 digits 0)
              else None
            else if str_forallb is_octal_digit rest
                 then Some (number_value 8 rest 0)
                 else None
        end
      else if str_forallb is_digit part
           then Some (number_value 10 part 0)
           else None
  end.

(** [isspace] of the C locale. *)
Definition c_isspace (c : ascii) : bool :=
  let n := nat_of_ascii c in ((n =? 32) || ((9 <=? n) && (n <=? 13)))%nat.

(** The text up to the first whitespace. *)
Fixpoint until_space (s : string) : string :=
  match s with
  | EmptyString => EmptyString
  | String c s' =>
      if c_isspace c then EmptyString else String c (until_space s')
  end.

(** Modelled on the C library's [inet_aton], which [socket.inet_aton]
    calls: one to four numbers separated by dots, each written as in C;
    all but the last are bytes and the last fills the bytes that remain;
    the address may be followed by whitespace, after which anything is
    ignored. *)
Definition inet_aton_libc (s : string) : bool :=
  match map c_number (split_on "." EmptyString (until_space s)) with
  | [Some a] => (a <=? 4294967295)%N
  | [Some a; Some b] => ((a <=? 255) && (b <=? 16777215))%N
  | [Some a; Some b; Some c] =>
      ((a <=? 255) && (b <=? 255) && (c <=? 65535))%N
  | [Some a; Some b; Some c; Some d] =>
      ((a <=? 255) && (b <=? 255) && (c <=? 255) && (d <=? 255))%N
  | _ => false
  end.

(** A decimal number from 0 to 255 without a leading zero. *)
Definition dec_octet (part : string) : bool :=
  match part with
  | EmptyString => false
  | String c rest =>
      if Ascii.eqb c "0" then negb (truthy rest)
      else str_forallb is_digit part
           && (String.length part <=? 3)%nat
           && (number_value 10 part 0 <=? 255)%N
  end.

(** A syntactically valid IPv4 address: four decimal octets separated by
    dots, the dotted-decimal form. *)
Definition valid_ipv4 (s : string) : bool :=
  match split_on "." EmptyString s with
  | [a; b; c; d] => dec_octet a && dec_octet b && dec_octet c && dec_octet d
  | _ => false
  end.

(** The machine's [socket.inet_aton] is the C library's. *)
Definition libc_inet_aton (w : World) : Prop :=
  forall s, inet_aton w s = inet_aton_libc s.

(** ** Sample worlds *)

Definition hosts_txt : string :=
  "example.com" ++ nl ++ "  www.example.org " ++ nl ++ nl
  ++ "gone.invalid" ++ nl.

(** A machine with dnspython: [example.com] and [www.example.org]
    resolve, other names do not exist; the files are [hosts.txt] and
    [blank.txt]; dnspython takes dotted-decimal nameservers; standard
    output encodes the marks; [/] cannot be opened for writing and
    [/dev/full] cannot be flushed. *)
Definition sample_world : World := {|
  DNS_AVAILABLE := true;
  resolver_setup := fun server =>
    if valid_ipv4 server then None
    else Some (Exn ValueError
                 "nameserver is not an IP address or a valid https URL");
  resolver_resolve := fun _ _ host =>
    if String.eqb host "example.com" then Returns ["93.184.216.34"; "10.0.0.1"]
    else if String.eqb host "www.example.org" then Returns ["93.184.216.35"]
    else Raises (Exn NXDOMAIN "The DNS query name does not exist");
  gethostbyname := fun _ host =>
    if String.eqb host "example.com" then Returns "93.184.216.34"
    else if String.eqb host "www.example.org" then Returns "93.184.216.35"
    else Raises (Exn gaierror "[Errno -2] Name or service not known");
  inet_aton := inet_aton_libc;
  open_read := fun path =>
    if String.eqb path "hosts.txt" then Returns hosts_txt
    else if String.eqb path "blank.txt" then Returns (nl ++ "  " ++ nl)
    else if String.eqb path "secret.txt" then
      Raises (Exn PermissionError "[Errno 13] Permission denied")
    else Raises (Exn FileNotFoundError
                   "[Errno 2] No such file or directory");
  open_write := fun path =>
    if String.eqb path "/" then
      Some (Exn OSError "[Errno 21] Is a directory: '/'")
    else None;
  write_error := fun _ _ _ => None;
  close_error := fun _ path =>
    if String.eqb path "/dev/full" then
      Some (Exn OSError "[Errno 28] No space left on device")
    else None;
  stdout_mark_error := None;
  now := "2024-01-01 12:00:00"
|}.

(** The same machine without dnspython. *)
Definition sample_world_no_dnspython : World := {|
  DNS_AVAILABLE := false;
  resolver_setup := resolver_setup sample_world;
  resolver_resolve := resolver_resolve sample_world;
  gethostbyname := gethostbyname sample_world;
  inet_aton := inet_aton sample_world;
  open_read := open_read sample_world;
  open_write := open_write sample_world;
  write_error := write_error sample_world;
  close_error := close_error sample_world;
  stdout_mark_error := stdout_mark_error sample_world;
  now := now sample_world
|}.

(** The same machine where the only readable file lists two hostnames. *)
Definition sample_world_list : World := {|
  DNS_AVAILABLE := true;
  resolver_setup := resolver_setup sample_world;
  resolver_resolve := resolver_resolve sample_world;
  gethostbyname := gethostbyname sample_world;
  inet_aton := inet_aton sample_world;
  open_read := fun _ =>
    Returns ("a.example" ++ nl ++ "b.example" ++ nl);
  open_write := open_write sample_world;
  write_error := write_error sample_world;
  close_error := close_error sample_world;
  stdout_mark_error := stdout_mark_error sample_world;
  now := now sample_world
|}.

(** ** Notions used by the statements *)

(** The first and the last character of a string. *)
Definition first_char (s : string) : option ascii :=
  match s with
  | EmptyString => None
  | String c _ => Some c
  end.

Fixpoint last_char (s : string) : option ascii :=
  match s with
  | EmptyString => None
  | String c EmptyString => Some c
  | String _ s' => last_char s'
  end.

(** [m] only appends to the trace, and every event it appends
    satisfies [P]. *)
Definition emits (P : event -> Prop) {A} (m : M A) : Prop :=
  forall t r t',
    m t = (r, t') -> exists d, t' = (t ++ d)%list /\ Forall P d.

(** No event of the trace is the message of the empty-list exit. *)
Definition not_empty_list_message (e : event) : Prop :=
  e <> Eprint "No hostnames found to lookup".

(** The events of the loop of lines 103-108. *)
Definition body_events (path : string) (verbose : bool)
    (results : list LookupResult) : trace :=
  flat_map
    (fun r =>
       FWrite path (result_line r)
       :: (if verbose then [Print (strip (result_line r))] else []))
    results.

(** The divider of the report. *)
Definition divider : string := str_repeat "=" 70.

(** ** Further observations on a trace *)

Definition is_query (e : event) : bool :=
  match e with
  | Query _ _ => true
  | _ => false
  end.

(** The queries sent, in order: the name asked for and the server, [None]
    for the system resolver. *)
Fixpoint queries_of (t : trace) : list (string * option string) :=
  match t with
  | [] => []
  | Query host server :: t' => (host, server) :: queries_of t'
  | _ :: t' => queries_of t'
  end.

(** What was printed on standard output, one entry per [print]. *)
Fixpoint stdout_of (t : trace) : list string :=
  match t with
  | [] => []
  | Print s :: t' => s :: stdout_of t'
  | _ :: t' => stdout_of t'
  end.

(** [s] has no newline character. *)
Definition no_newline (s : string) : bool :=
  str_forallb (fun c => negb (Ascii.eqb c newline)) s.

(** The query one call of [perform_dns_lookup] sends: to the server when
    one is given, dnspython is there and takes it as a nameserver; to the
    system resolver when none is given; and none at all when a server is
    given without dnspython, or is refused by dnspython. *)
Definition lookup_queries (w : World) (dns_server : option string)
    (host : string) : trace :=
  if py_bool dns_server && DNS_AVAILABLE w
  then match resolver_setup w (the dns_server) with
       | None => [Query host (Some (the dns_server))]
       | Some _ => []
       end
  else if py_bool dns_server && negb (DNS_AVAILABLE w) then []
  else [Query host None].

Definition carriage_return : ascii := "013"%char.

(** [s] has no character that ends a line in a text file: no newline,
    and no carriage return, which reading translates to a newline. *)
Definition no_line_break (s : string) : bool :=
  str_forallb
    (fun c => negb (Ascii.eqb c newline) && negb (Ascii.eqb c carriage_return))
    s.

(** The progress line of one result (lines 195-196). *)
Definition progress_line (r : LookupResult) : string :=
  (if success r then check_mark else cross_mark) ++ " " ++ hostname r.

(** A text file with one hostname per line. *)
Definition hosts_file (hostnames : list string) : string :=
  join (map (fun h => h ++ nl) hostnames).

(** [m] leaves through [sys.exit] only with code 1. *)
Definition exits_with_1 {A} (m : M A) : Prop :=
  forall t c t', m t = (Exit c, t') -> c = 1%Z.


(** The result of every lookup when a server is given and dnspython is
    absent (line 39). *)
Definition dnspython_missing (host : string) : LookupResult :=
  mkResult host "Error: dnspython not installed (required for custom DNS)"
    false.

(** The event is not a query. *)
Definition no_query (e : event) : Prop := is_query e = false.



(** The events of a call of [write_results] that wrote the whole report. *)
Definition report_events (w : World) (results : list LookupResult)
    (output_file : string) (verbose : bool) (dns_server : option string)
  : trace :=
  ([FOpen output_file;
    FWrite output_file ("DNS Lookup Results - " ++ now w ++ nl);
    FWrite output_file
      ("DNS Server: "
       ++ (if py_bool dns_server then the dns_server else "System Default")
       ++ nl);
    FWrite output_file (divider ++ nl ++ nl)]
   ++ body_events output_file verbose results
   ++ [FWrite output_file (nl ++ divider ++ nl);
       FWrite output_file
         ("Total lookups: " ++ str_of_int (len results) ++ nl);
       FWrite output_file
         ("Successful: "
          ++ str_of_int (py_sum (map (fun _ => 1%Z) (filter success results)))
          ++ nl);
       FWrite output_file
         ("Failed: "
          ++ str_of_int
               (len results
                - py_sum (map (fun _ => 1%Z) (filter success results)))
          ++ nl);
       Print (nl ++ "Results written to: " ++ output_file)])%list.

(** The event is not a query and does not touch the file [other]. *)
Definition leaves_alone (other : string) (e : event) : Prop :=
  match e with
  | Query _ _ => False
  | FOpen p => p <> other
  | FWrite p _ => p <> other
  | _ => True
  end.


(** * Properties *)

(** ** The class hierarchy *)

(** Four steps reach the root from every class: more fuel changes
    nothing. *)
Lemma issubclass_fuel_enough :
  forall n c target,
    issubclass_fuel (4 + n) c target = issubclass c target.
Proof.
  intros n c target. unfold issubclass.
  destruct c, target; cbn; try reflexivity; destruct n; reflexivity.
Qed.

Example isinstance_samples :
  isinstance (Exn gaierror "") OSError = true
  /\ isinstance (Exn gaierror "") Exception = true
  /\ isinstance (Exn LifetimeTimeout "") Timeout = true
  /\ isinstance (Exn NoNameservers "") NXDOMAIN = false
  /\ isinstance (Exn KeyboardInterrupt "") Exception = false.
Proof.
  repeat split.
Qed.

(** ** The resolver: [perform_dns_lookup] *)

Ltac unfold_lookup :=
  unfold perform_dns_lookup, try_except, bind, query_server, query_system,
    first_answer, dns_resolver_attr, lift, emit, ret, raise in *.

Ltac by_class e :=
  destruct e as [[] ?]; cbn in *.

(** With dnspython absent and no server given, a name that the system
    resolver rejects makes the lookup raise [NameError]: the first
    [except] clause names [dns.resolver.NXDOMAIN] and [dns] is unbound. *)
Lemma system_failure_without_dnspython :
  forall w host dns_server t e,
    DNS_AVAILABLE w = false ->
    py_bool dns_server = false ->
    gethostbyname w t host = Raises e ->
    perform_dns_lookup w host dns_server t
    = (Raise (Exn NameError "name 'dns' is not defined"),
       (t ++ [Query host None])%list).
Proof.
  intros w host dns_server t e Hdns Hsrv Hraise.
  unfold_lookup. rewrite Hsrv, Hdns. cbn. rewrite Hraise. reflexivity.
Qed.


(** C1, at the failing input: on a machine without dnspython,
    [perform_dns_lookup "gone.invalid"] with no server given does not
    return a triple; the [socket.gaierror] of the system resolver reaches
    the [except dns.resolver.NXDOMAIN] clause, whose evaluation raises
    [NameError], and that exception leaves the function. *)
Theorem perform_dns_lookup_raises_name_error :
  gethostbyname sample_world_no_dnspython [] "gone.invalid"
  = Raises (Exn gaierror "[Errno -2] Name or service not known")
  /\ perform_dns_lookup sample_world_no_dnspython "gone.invalid" None []
     = (Raise (Exn NameError "name 'dns' is not defined"),
        [Query "gone.invalid" None]).
Proof.
  split; reflexivity.
Qed.




(** C5: a server was asked for and dnspython is absent: the lookup fails
    with the fixed message, and no query is issued at all. *)
Theorem custom_lookup_without_dnspython :
  forall w host server t,
    truthy server = true ->
    DNS_AVAILABLE w = false ->
    perform_dns_lookup w host (Some server) t
    = (Ret (mkResult host
              "Error: dnspython not installed (required for custom DNS)"
              false),
       t).
Proof.
  intros w host server t Hsrv Hdns.
  unfold_lookup. cbn. rewrite Hsrv, Hdns. reflexivity.
Qed.

Lemma custom_lookup_without_dnspython_witness :
  perform_dns_lookup sample_world_no_dnspython "example.com"
    (Some "8.8.8.8") []
  = (Ret (mkResult "example.com"
            "Error: dnspython not installed (required for custom DNS)"
            false),
     []).
Proof.
  exact (custom_lookup_without_dnspython sample_world_no_dnspython
           "example.com" "8.8.8.8" [] eq_refl eq_refl).
Defined.

Lemma prefix_empty : forall s, prefix "" s = true.
Proof.
  intros s. destruct s; reflexivity.
Qed.

(** Every way [perform_dns_lookup] can return, with what it returns. *)
Lemma lookup_returned_cases :
  forall w host dns_server t r t',
    perform_dns_lookup w host dns_server t = (Ret r, t') ->
    hostname r = host
    /\ (success r = false ->
        prefix "Error: " (ip_address r) = true
        \/ prefix "Unexpected error: " (ip_address r) = true).
Proof.
  intros w host dns_server t r t'.
  unfold_lookup.
  destruct (py_bool dns_server), (DNS_AVAILABLE w) eqn:Hdns; cbn.
  - destruct (resolver_setup w (the dns_server)) as [e|]; cbn.
    { by_class e; rewrite ?Hdns; intros [= <- <-]; cbn;
        rewrite ?prefix_empty; auto. }
    destruct (resolver_resolve w t (the dns_server) host) as [[|a l]|e];
      cbn; rewrite ?Hdns; cbn.
    + intros [= <- <-]. cbn. auto.
    + intros [= <- <-]. cbn. split; [reflexivity | discriminate].
    + by_class e; rewrite ?Hdns; intros [= <- <-]; cbn;
        rewrite ?prefix_empty; auto.
  - intros [= <- <-]. cbn. auto.
  - destruct (gethostbyname w t host) as [a|e]; cbn; rewrite ?Hdns; cbn.
    + intros [= <- <-]. cbn. split; [reflexivity | discriminate].
    + by_class e; rewrite ?Hdns; intros [= <- <-]; cbn;
        rewrite ?prefix_empty; auto.
  - destruct (gethostbyname w t host) as [a|e]; cbn; rewrite ?Hdns; cbn.
    + intros [= <- <-]. cbn. split; [reflexivity | discriminate].
    + discriminate.
Qed.

(** C8: the triple returned carries the hostname it was called with. *)
Theorem lookup_keeps_hostname :
  forall w host dns_server t r t',
    perform_dns_lookup w host dns_server t = (Ret r, t') ->
    hostname r = host.
Proof.
  intros w host dns_server t r t' H.
  exact (proj1 (lookup_returned_cases w host dns_server t r t' H)).
Qed.

Lemma lookup_keeps_hostname_witness :
  hostname (mkResult "gone.invalid"
              "Error: [Errno -2] Name or service not known" false)
  = "gone.invalid".
Proof.
  exact (lookup_keeps_hostname sample_world "gone.invalid" None [] _ _
           eq_refl).
Defined.

(** C10: a failed result returned by [perform_dns_lookup] has a
    second component that starts with ["Error: "] or
    ["Unexpected error: "]. *)
Theorem failed_lookup_prefix :
  forall w host dns_server t r t',
    perform_dns_lookup w host dns_server t = (Ret r, t') ->
    success r = false ->
    prefix "Error: " (ip_address r) = true
    \/ prefix "Unexpected error: " (ip_address r) = true.
Proof.
  intros w host dns_server t r t' H.
  exact (proj2 (lookup_returned_cases w host dns_server t r t' H)).
Qed.

Lemma failed_lookup_prefix_witness :
  prefix "Error: " "Error: Domain does not exist" = true
  \/ prefix "Unexpected error: " "Error: Domain does not exist" = true.
Proof.
  exact (failed_lookup_prefix sample_world "gone.invalid" (Some "8.8.8.8") []
           (mkResult "gone.invalid" "Error: Domain does not exist" false) _
           eq_refl eq_refl).
Defined.

(** ** Strings: [strip] and the lines of a file *)

Lemma append_empty_r : forall s, s ++ "" = s.
Proof.
  induction s as [|c s IH]; cbn; [reflexivity | now rewrite IH].
Qed.

Lemma append_assoc : forall a b c : string, (a ++ b) ++ c = a ++ (b ++ c).
Proof.
  induction a as [|x a IH]; intros b c; cbn; [reflexivity | now rewrite IH].
Qed.

Lemma lstrip_decompose :
  forall s, exists pre, s = pre ++ lstrip s /\ blank pre = true.
Proof.
  induction s as [|c s [pre [Heq Hb]]]; cbn.
  - exists "". split; reflexivity.
  - destruct (isspace c) eqn:Hc.
    + exists (String c pre). cbn. rewrite <- Heq. unfold blank in *. cbn.
      rewrite Hc, Hb. split; reflexivity.
    + exists "". split; reflexivity.
Qed.

Lemma rstrip_decompose :
  forall s, exists post, s = rstrip s ++ post /\ blank post = true.
Proof.
  induction s as [|c s [post [Heq Hb]]]; cbn.
  - exists "". split; reflexivity.
  - destruct (rstrip s) as [|c' r] eqn:Hr.
    + cbn in Heq. subst post. destruct (isspace c) eqn:Hc.
      * exists (String c s). unfold blank in *. cbn. rewrite Hc, Hb.
        split; reflexivity.
      * exists s. split; [reflexivity | assumption].
    + exists post. cbn. rewrite Heq at 1. split; [reflexivity | assumption].
Qed.

(** [strip] removes a blank prefix and a blank suffix, nothing else. *)
Lemma strip_decompose :
  forall s, exists pre post,
    s = pre ++ strip s ++ post /\ blank pre = true /\ blank post = true.
Proof.
  intros s. unfold strip.
  destruct (lstrip_decompose s) as [pre [Hl Hpre]].
  destruct (rstrip_decompose (lstrip s)) as [post [Hr Hpost]].
  exists pre, post. rewrite <- Hr. auto.
Qed.

Lemma rstrip_truthy :
  forall c s, isspace c = false -> truthy (rstrip (String c s)) = true.
Proof.
  intros c s Hc. cbn. destruct (rstrip s); [rewrite Hc|]; reflexivity.
Qed.

(** A line survives the filter of [read_hostnames] exactly when it is not
    blank. *)
Lemma truthy_strip : forall s, truthy (strip s) = negb (blank s).
Proof.
  unfold strip, blank.
  induction s as [|c s IH]; [reflexivity|].
  cbn [lstrip str_forallb]. destruct (isspace c) eqn:Hc.
  - exact IH.
  - now rewrite rstrip_truthy.
Qed.

Lemma lstrip_first :
  forall s c, first_char (lstrip s) = Some c -> isspace c = false.
Proof.
  induction s as [|x s IH]; intros c; cbn; [discriminate|].
  destruct (isspace x) eqn:Hx; [apply IH|].
  cbn. now intros [= <-].
Qed.

Lemma rstrip_first :
  forall s c, first_char (rstrip s) = Some c -> first_char s = Some c.
Proof.
  intros [|x s] c; cbn; [discriminate|].
  destruct (rstrip s); [destruct (isspace x)|]; cbn; congruence.
Qed.

Lemma rstrip_last :
  forall s c, last_char (rstrip s) = Some c -> isspace c = false.
Proof.
  induction s as [|x s IH]; intros c; cbn; [discriminate|].
  destruct (rstrip s) as [|y r] eqn:Hr.
  - destruct (isspace x) eqn:Hx; cbn; [discriminate|]. now intros [= <-].
  - intros H. apply IH. exact H.
Qed.

(** What [strip] leaves neither starts nor ends with whitespace. *)
Lemma strip_edges :
  forall s c,
    first_char (strip s) = Some c \/ last_char (strip s) = Some c ->
    isspace c = false.
Proof.
  intros s c [H|H]; unfold strip in H.
  - apply (lstrip_first s). now apply rstrip_first.
  - now apply (rstrip_last (lstrip s)).
Qed.

Lemma join_readlines_from :
  forall s cur, join (readlines_from cur s) = cur ++ s.
Proof.
  induction s as [|c s IH]; intros cur; cbn.
  - destruct cur; cbn; now rewrite ?append_empty_r.
  - destruct (Ascii.eqb c newline); cbn; rewrite IH.
    + now rewrite append_assoc.
    + now rewrite append_assoc.
Qed.

(** The lines of a file, put end to end, are the file. *)
Lemma join_readlines : forall content, join (readlines content) = content.
Proof.
  intros content. unfold readlines. now rewrite join_readlines_from.
Qed.

(** ** The input reader: [read_hostnames] *)

Lemma filter_ext_bool :
  forall (A : Type) (f g : A -> bool) (l : list A),
    (forall a, f a = g a) -> filter f l = filter g l.
Proof.
  intros A f g l H. induction l as [|a l IH]; cbn; [reflexivity|].
  now rewrite H, IH.
Qed.

(** [read_hostnames] by the outcome of opening and reading the file. *)
Lemma read_hostnames_cases :
  forall w input_source t,
    read_hostnames w input_source t
    = match open_read w input_source with
      | Returns content =>
          (Ret (map strip
                  (filter (fun line => negb (blank line))
                     (readlines content))),
           t)
      | Raises e =>
          if isinstance e FileNotFoundError then (Ret [input_source], t)
          else if isinstance e Exception then
            (Exit 1%Z,
             (t ++ [Eprint ("Error reading input: " ++ exn_str e)])%list)
          else (Raise e, t)
      end.
Proof.
  intros w input_source t.
  unfold read_hostnames, try_except, bind, lift, ret, raise, eprint, emit,
    sys_exit.
  destruct (open_read w input_source) as [content|e]; cbn.
  - do 3 f_equal. apply filter_ext_bool. intros a. apply truthy_strip.
  - by_class e; reflexivity.
Qed.

(** C4: when the file opens, the hostnames are its non-blank lines,
    stripped, in file order; when it is not found, the hostname list is the
    argument itself; any other exception below [Exception] is reported on
    standard error and the process exits with code 1. *)
Theorem read_hostnames_spec :
  forall w input_source t,
    (forall content,
        open_read w input_source = Returns content ->
        read_hostnames w input_source t
        = (Ret (map strip
                  (filter (fun line => negb (blank line))
                     (readlines content))),
           t))
    /\ (forall e,
           open_read w input_source = Raises e ->
           isinstance e FileNotFoundError = true ->
           read_hostnames w input_source t = (Ret [input_source], t))
    /\ (forall e,
           open_read w input_source = Raises e ->
           isinstance e FileNotFoundError = false ->
           isinstance e Exception = true ->
           read_hostnames w input_source t
           = (Exit 1%Z,
              (t ++ [Eprint ("Error reading input: " ++ exn_str e)])%list)).
Proof.
  intros w input_source t. rewrite read_hostnames_cases.
  split; [| split].
  - now intros content ->.
  - now intros e -> ->.
  - now intros e -> -> ->.
Qed.

(** A file with three hostnames and one blank line gives the three
    hostnames, in the order of the file. *)
Lemma read_hostnames_spec_witness :
  List.length (readlines hosts_txt) = 4
  /\ read_hostnames sample_world "hosts.txt" []
     = (Ret ["example.com"; "www.example.org"; "gone.invalid"], []).
Proof.
  split; [reflexivity |].
  exact (proj1 (read_hostnames_spec sample_world "hosts.txt" [])
           hosts_txt eq_refl).
Defined.

(** ** What a computation adds to the trace *)

Section Emits.

Variable P : event -> Prop.

Lemma emits_nothing :
  forall A (m : M A), (forall t, exists r, m t = (r, t)) -> emits P m.
Proof.
  intros A m H t r t' Hm. destruct (H t) as [r0 Hr]. rewrite Hr in Hm.
  injection Hm as _ <-. exists []. now rewrite app_nil_r.
Qed.

Lemma emits_ret : forall A (a : A), emits P (ret a).
Proof. intros A a. apply emits_nothing. intros t. now exists (Ret a). Qed.

Lemma emits_raise : forall A e, emits P (@raise A e).
Proof. intros A e. apply emits_nothing. intros t. now exists (Raise e). Qed.

Lemma emits_sys_exit : forall A c, emits P (@sys_exit A c).
Proof. intros A c. apply emits_nothing. intros t. now exists (Exit c). Qed.

Lemma emits_lift : forall A (r : answer A), emits P (lift r).
Proof. intros A [a|e]; [apply emits_ret | apply emits_raise]. Qed.

Lemma emits_emit : forall e, P e -> emits P (emit e).
Proof.
  intros e He t r t' [= _ <-]. exists [e]. split; [reflexivity | auto].
Qed.

Lemma emits_bind :
  forall A B (m : M A) (f : A -> M B),
    emits P m -> (forall a, emits P (f a)) -> emits P (bind m f).
Proof.
  intros A B m f Hm Hf t r t' H. unfold bind in H.
  destruct (m t) as [[a|e|c] t1] eqn:E;
    apply Hm in E as [d1 [-> F1]].
  - apply Hf in H as [d2 [-> F2]]. exists (d1 ++ d2)%list.
    split; [now rewrite app_assoc | now apply Forall_app].
  - injection H as _ <-. eauto.
  - injection H as _ <-. eauto.
Qed.

Lemma emits_handle :
  forall A (cs : list (clause A)) e,
    Forall (fun cl => emits P (fst cl) /\ forall e', emits P (snd cl e')) cs ->
    emits P (handle e cs).
Proof.
  intros A cs e H. induction H as [|[cexpr h] cs [Hc Hh] _ IH].
  - apply emits_raise.
  - cbn [fst snd] in Hc, Hh. intros t r t' Hrun. cbn [handle] in Hrun.
    destruct (cexpr t) as [[c|e'|c] t1] eqn:E;
      apply Hc in E as [d1 [-> F1]].
    + assert (Hk : exists d2, t' = ((t ++ d1) ++ d2)%list /\ Forall P d2).
      { destruct (isinstance e c);
          [exact (Hh e _ _ _ Hrun) | exact (IH _ _ _ Hrun)]. }
      destruct Hk as [d2 [-> F2]]. exists (d1 ++ d2)%list.
      split; [now rewrite app_assoc | now apply Forall_app].
    + injection Hrun as _ <-. eauto.
    + injection Hrun as _ <-. eauto.
Qed.

Lemma emits_try_except :
  forall A (body : M A) (cs : list (clause A)),
    emits P body ->
    Forall (fun cl => emits P (fst cl) /\ forall e', emits P (snd cl e')) cs ->
    emits P (try_except body cs).
Proof.
  intros A body cs Hb Hcs t r t' H. unfold try_except in H.
  destruct (body t) as [[a|e|c] t1] eqn:E;
    apply Hb in E as [d1 [-> F1]].
  - injection H as _ <-. eauto.
  - apply (emits_handle _ cs e Hcs) in H as [d2 [-> F2]].
    exists (d1 ++ d2)%list.
    split; [now rewrite app_assoc | now apply Forall_app].
  - injection H as _ <-. eauto.
Qed.

Lemma emits_for_each :
  forall A (xs : list A) (body : A -> M unit),
    (forall x, emits P (body x)) -> emits P (for_each xs body).
Proof.
  intros A xs body H. induction xs as [|x xs IH]; cbn.
  - apply emits_ret.
  - apply emits_bind; auto.
Qed.

End Emits.

Section EmitsScript.

Variable P : event -> Prop.
Variable w : World.

Lemma query_server_emits :
  forall server host,
    P (Query host (Some server)) -> emits P (query_server w server host).
Proof.
  intros server host HP. unfold query_server.
  destruct (resolver_setup w server); [apply emits_raise |].
  intros t r t' H.
  revert H. apply emits_bind; [now apply emits_emit | intros; apply emits_lift].
Qed.

Lemma query_system_emits :
  forall host, P (Query host None) -> emits P (query_system w host).
Proof.
  intros host HP t r t' H. unfold query_system in H.
  revert H. apply emits_bind; [now apply emits_emit | intros; apply emits_lift].
Qed.

Lemma dns_resolver_attr_emits :
  forall c, emits P (dns_resolver_attr w c).
Proof.
  intros c. unfold dns_resolver_attr.
  destruct (DNS_AVAILABLE w); [apply emits_ret | apply emits_raise].
Qed.

Lemma print_marked_emits :
  forall s, P (Print s) -> emits P (print_marked w s).
Proof.
  intros s HP. unfold print_marked.
  destruct (stdout_mark_error w); [apply emits_raise | now apply emits_emit].
Qed.

Lemma fwrite_emits :
  forall path s, P (FWrite path s) -> emits P (fwrite w path s).
Proof.
  intros path s HP t r t' H. unfold fwrite in H.
  destruct (write_error w t path s).
  - injection H as _ <-. exists []. now rewrite app_nil_r.
  - revert H. now apply emits_emit.
Qed.

Lemma with_file_emits :
  forall A path (body : M A),
    P (FOpen path) -> emits P body -> emits P (with_file w path body).
Proof.
  intros A path body HP Hb. unfold with_file, fopen.
  apply emits_bind.
  - destruct (open_write w path); [apply emits_raise | now apply emits_emit].
  - intros _ t r t' H.
    destruct (body t) as [[a|e|c] t1] eqn:E;
      apply Hb in E as [d [-> Hd]];
      destruct (close_error w (t ++ d)%list path);
      injection H as _ <-; eauto.
Qed.

Hypothesis P_query : forall host server, P (Query host server).

Lemma perform_dns_lookup_emits :
  forall host dns_server, emits P (perform_dns_lookup w host dns_server).
Proof.
  intros host dns_server. unfold perform_dns_lookup.
  apply emits_try_except.
  - destruct (py_bool dns_server && DNS_AVAILABLE w);
      [| destruct (py_bool dns_server && negb (DNS_AVAILABLE w))].
    + apply emits_bind; [apply query_server_emits, P_query | intros].
      apply emits_bind; [| intros; apply emits_ret].
      destruct a; [apply emits_raise | apply emits_ret].
    + apply emits_ret.
    + apply emits_bind; [apply query_system_emits, P_query | intros].
      apply emits_ret.
  - repeat (apply Forall_cons; [split; [| intros] |]);
      try apply Forall_nil; cbn [fst snd];
      first [apply dns_resolver_attr_emits | apply emits_ret].
Qed.

Hypothesis P_print : forall s, P (Print s).

Lemma lookup_loop_emits :
  forall dns_server hostnames results,
    emits P (lookup_loop w dns_server hostnames results).
Proof.
  intros dns_server hostnames.
  induction hostnames as [|host rest IH]; intros results; cbn.
  - apply emits_ret.
  - apply emits_bind; [apply perform_dns_lookup_emits | intros].
    apply emits_bind; [apply print_marked_emits, P_print | intros].
    apply IH.
Qed.

End EmitsScript.

(** ** The driver: [main] *)

Lemma bind_assoc :
  forall A B C (m : M A) (f : A -> M B) (g : B -> M C) t,
    bind (bind m f) g t = bind m (fun a => bind (f a) g) t.
Proof.
  intros A B C m f g t. unfold bind. destruct (m t) as [[a|e|c] t']; reflexivity.
Qed.

Lemma bind_ext :
  forall A B (m : M A) (f g : A -> M B) t,
    (forall a t', f a t' = g a t') -> bind m f t = bind m g t.
Proof.
  intros A B m f g t H. unfold bind. destruct (m t) as [[a|e|c] t']; auto.
Qed.

Ltac other_event := unfold not_empty_list_message; cbn; discriminate.

Lemma validate_dns_emits :
  forall w args, emits not_empty_list_message (validate_dns w args).
Proof.
  intros w args. unfold validate_dns, eprint.
  destruct (py_bool (dns args)); [| apply emits_ret].
  apply emits_bind; [| intros _].
  - destruct (inet_aton w (the (dns args))); [apply emits_ret |].
    apply emits_bind; [apply emits_emit; other_event | intros _].
    apply emits_sys_exit.
  - destruct (negb (DNS_AVAILABLE w)); [| apply emits_ret].
    repeat (apply emits_bind; [apply emits_emit; other_event | intros _]).
    apply emits_emit; other_event.
Qed.

Lemma write_results_emits :
  forall w results output_file verbose dns_server,
    emits not_empty_list_message
      (write_results w results output_file verbose dns_server).
Proof.
  intros w results output_file verbose dns_server.
  unfold write_results, print, eprint.
  apply emits_try_except.
  - apply emits_bind; [| intros _; apply emits_emit; other_event].
    apply with_file_emits; [other_event |].
    apply emits_bind; [apply fwrite_emits; other_event | intros _].
    apply emits_bind; [| intros _].
    { destruct (py_bool dns_server); apply fwrite_emits; other_event. }
    apply emits_bind; [apply fwrite_emits; other_event | intros _].
    apply emits_bind; [| intros _].
    { apply emits_for_each. intros r.
      apply emits_bind; [apply fwrite_emits; other_event | intros _].
      destruct verbose; [apply emits_emit; other_event | apply emits_ret]. }
    repeat (apply emits_bind; [apply fwrite_emits; other_event | intros _]).
    apply fwrite_emits; other_event.
  - apply Forall_cons; [split; [apply emits_ret | intros e] | apply Forall_nil].
    cbn [snd].
    apply emits_bind; [apply emits_emit; other_event | intros _].
    apply emits_sys_exit.
Qed.

(** Once the hostname list is not empty, nothing in the rest of [main]
    prints the message of the empty-list exit. *)
Lemma main_resolve_emits :
  forall w args host rest,
    emits not_empty_list_message (main_resolve w args (host :: rest)).
Proof.
  intros w args host rest. unfold main_resolve, print.
  apply emits_bind; [apply emits_ret | intros _].
  apply emits_bind; [apply emits_emit; other_event | intros _].
  apply lookup_loop_emits; intros; other_event.
Qed.

Lemma quiet_trace :
  forall t : trace,
    Forall not_empty_list_message t ->
    ~ In (Eprint "No hostnames found to lookup") t.
Proof.
  intros t HF Hin. rewrite Forall_forall in HF. now destruct (HF _ Hin).
Qed.

Lemma filter_nil_forallb :
  forall (A : Type) (f : A -> bool) (l : list A),
    filter (fun a => negb (f a)) l = [] -> forallb f l = true.
Proof.
  intros A f l. induction l as [|a l IH]; cbn; [reflexivity|].
  destruct (f a); cbn; [exact IH | discriminate].
Qed.

Lemma forallb_filter_nil :
  forall (A : Type) (f : A -> bool) (l : list A),
    forallb f l = true -> filter (fun a => negb (f a)) l = [].
Proof.
  intros A f l. induction l as [|a l IH]; cbn; [reflexivity|].
  destruct (f a); cbn; [exact IH | discriminate].
Qed.

Lemma py_sum_ones :
  forall (A : Type) (l : list A),
    py_sum (map (fun _ => 1%Z) l) = Z.of_nat (List.length l).
Proof.
  intros A l. unfold py_sum.
  assert (H : forall acc,
             fold_left Z.add (map (fun _ : A => 1%Z) l) acc
             = (acc + Z.of_nat (List.length l))%Z).
  { induction l as [|a l IH]; intros acc; cbn [map fold_left List.length].
    - cbn. lia.
    - rewrite IH. lia. }
  rewrite H. lia.
Qed.

(** Line 203 picks 0 exactly when no result failed. *)
Lemma failed_count_zero :
  forall results,
    (failed_count results =? 0)%Z = forallb success results.
Proof.
  intros results. unfold failed_count. rewrite py_sum_ones.
  induction results as [|r rs IH]; [reflexivity|].
  cbn [filter forallb]. destruct (success r); cbn [negb andb].
  - exact IH.
  - cbn [List.length]. apply Z.eqb_neq. lia.
Qed.

(** C2: when the lookups end with the list [results] and the report is
    written, the process exits, with code 0 exactly when every result has
    [success = true], and with code 1 otherwise. *)
Theorem exit_code_reflects_results :
  forall w args t0 results t1 t2,
    main_lookups w args t0 = (Ret results, t1) ->
    write_results w results (output args) (verbose args) (dns args) t1
    = (Ret tt, t2) ->
    exists code,
      main w args t0 = (Exit code, t2)
      /\ (code = 0%Z <-> forall r, In r results -> success r = true)
      /\ (code <> 0%Z -> code = 1%Z).
Proof.
  intros w args t0 results t1 t2 Hlook Hwrite.
  exists (if forallb success results then 0%Z else 1%Z).
  split; [| split].
  - unfold main, bind. rewrite Hlook, Hwrite. unfold sys_exit.
    now rewrite failed_count_zero.
  - destruct (forallb success results) eqn:E.
    + rewrite forallb_forall in E. split; [intros _; exact E | reflexivity].
    + split; [discriminate|]. intros H.
      rewrite <- forallb_forall in H. congruence.
  - destruct (forallb success results); [congruence | reflexivity].
Qed.

Lemma exit_code_reflects_results_witness :
  exists code,
    main sample_world (mkArgs "hosts.txt" "out.txt" false None) []
    = (Exit code,
       snd (main sample_world (mkArgs "hosts.txt" "out.txt" false None) []))
    /\ (code = 0%Z <->
        forall r,
          In r [mkResult "example.com" "93.184.216.34" true;
                mkResult "www.example.org" "93.184.216.35" true;
                mkResult "gone.invalid"
                  "Error: [Errno -2] Name or service not known" false] ->
          success r = true)
    /\ (code <> 0%Z -> code = 1%Z).
Proof.
  exact (exit_code_reflects_results sample_world
           (mkArgs "hosts.txt" "out.txt" false None) [] _ _ _
           eq_refl eq_refl).
Defined.

(** *** [socket.inet_aton] and the dotted-decimal form *)

Lemma str_forallb_app :
  forall p a b, str_forallb p (a ++ b) = str_forallb p a && str_forallb p b.
Proof.
  intros p a b. induction a as [|c a IH]; cbn; [reflexivity |].
  now rewrite IH, andb_assoc.
Qed.

(** When every part satisfies [p], every character is the separator or
    satisfies [p]. *)
Lemma split_on_chars :
  forall p sep s cur,
    Forall (fun part => str_forallb p part = true) (split_on sep cur s) ->
    str_forallb p cur = true
    /\ str_forallb (fun c => Ascii.eqb c sep || p c) s = true.
Proof.
  intros p sep s. induction s as [|c s IH]; intros cur H; cbn in *.
  - inversion H. auto.
  - destruct (Ascii.eqb c sep) eqn:Hc; cbn.
    + inversion H as [|x l Hcur Hrest]. subst.
      destruct (IH _ Hrest) as [_ Hs]. auto.
    + destruct (IH _ H) as [Hcur Hs]. rewrite str_forallb_app in Hcur.
      cbn in Hcur. apply andb_prop in Hcur as [Hcur Hpc].
      rewrite andb_true_r in Hpc. now rewrite Hpc, Hs.
Qed.

Lemma dec_octet_digits :
  forall part, dec_octet part = true -> str_forallb is_digit part = true.
Proof.
  intros [|c rest]; cbn [dec_octet]; [discriminate |].
  destruct (Ascii.eqb c "0") eqn:Hc.
  - apply Ascii.eqb_eq in Hc. subst c.
    destruct rest; [reflexivity | discriminate].
  - intros H. apply andb_prop in H as [H _]. now apply andb_prop in H as [H _].
Qed.

Lemma dec_octet_number :
  forall part,
    dec_octet part = true ->
    exists v, c_number part = Some v /\ (v <=? 255)%N = true.
Proof.
  intros [|c rest]; cbn [dec_octet c_number]; [discriminate |].
  destruct (Ascii.eqb c "0") eqn:Hc.
  - destruct rest; [| discriminate]. exists 0%N. auto.
  - intros H. apply andb_prop in H as [H Hv]. apply andb_prop in H as [H _].
    rewrite H. eauto.
Qed.

Lemma not_space :
  forall c, Ascii.eqb c "." || is_digit c = true -> c_isspace c = false.
Proof.
  intros c H. apply orb_prop in H as [H|H].
  - apply Ascii.eqb_eq in H. now subst c.
  - unfold is_digit, c_isspace in *. apply andb_prop in H as [H1 H2].
    apply Nat.leb_le in H1. apply Nat.leb_le in H2.
    apply orb_false_intro; [apply Nat.eqb_neq; lia |].
    apply andb_false_intro2. apply Nat.leb_gt. lia.
Qed.

Lemma until_space_fixed :
  forall s,
    str_forallb (fun c => Ascii.eqb c "." || is_digit c) s = true ->
    until_space s = s.
Proof.
  induction s as [|c s IH]; cbn; [reflexivity |].
  intros H. apply andb_prop in H as [Hc Hs].
  now rewrite (not_space c Hc), (IH Hs).
Qed.

(** The C library takes every address in dotted-decimal form. *)
Lemma valid_ipv4_accepted :
  forall s, valid_ipv4 s = true -> inet_aton_libc s = true.
Proof.
  intros s H. unfold valid_ipv4 in H. unfold inet_aton_libc.
  assert (Hs : until_space s = s).
  { apply until_space_fixed.
    apply (split_on_chars is_digit "." s EmptyString).
    destruct (split_on "." "" s) as [|a [|b [|c [|d [|x l]]]]];
      try discriminate.
    apply andb_prop in H as [H Hd]. apply andb_prop in H as [H Hc].
    apply andb_prop in H as [Ha Hb].
    repeat constructor; now apply dec_octet_digits. }
  rewrite Hs.
  destruct (split_on "." "" s) as [|a [|b [|c [|d [|x l]]]]];
    try discriminate.
  apply andb_prop in H as [H Hd]. apply andb_prop in H as [H Hc].
  apply andb_prop in H as [Ha Hb]. cbn [map].
  destruct (dec_octet_number a Ha) as [va [-> Hva]].
  destruct (dec_octet_number b Hb) as [vb [-> Hvb]].
  destruct (dec_octet_number c Hc) as [vc [-> Hvc]].
  destruct (dec_octet_number d Hd) as [vd [-> Hvd]].
  now rewrite Hva, Hvb, Hvc, Hvd.
Qed.

(** What the C library takes and what it refuses. *)
Example inet_aton_libc_samples :
  map inet_aton_libc
    ["8.8.8.8"; "255.255.255.255"; "127.1"; "1.2.3.4 x"; "0x7f.1";
     "010.1.1.1"; "4294967295"]
  = [true; true; true; true; true; true; true]
  /\ map inet_aton_libc
       [""; "999.999.999.999"; "256.1.1.1"; "1.2.3.4.5"; "1.2.3.08";
        "4294967296"; " 1.2.3.4"; "1.2.3.4x"; "1..2"; "1.2.3.4."; "0x"]
     = [false; false; false; false; false; false; false; false; false;
        false; false].
Proof.
  split; reflexivity.
Qed.

(** C6, as stated, fails.  With [-d ""] the check is skipped: the run
    goes on, a lookup is made and the report is written.  With
    [-d 127.1] and with [-d "1.2.3.4 x"] the check is made and passes,
    though neither value is an address in dotted-decimal form. *)
Lemma invalid_dns_arguments_proceed :
  (valid_ipv4 "" = false
   /\ fst (validate_dns sample_world
             (mkArgs "example.com" "out.txt" false (Some "")) [])
      = Ret tt
   /\ fst (main sample_world
             (mkArgs "example.com" "out.txt" false (Some "")) [])
      = Exit 0%Z
   /\ In (Query "example.com" None)
        (snd (main sample_world
                (mkArgs "example.com" "out.txt" false (Some "")) []))
   /\ In (FOpen "out.txt")
        (snd (main sample_world
                (mkArgs "example.com" "out.txt" false (Some "")) [])))
  /\ (valid_ipv4 "127.1" = false
      /\ inet_aton sample_world "127.1" = true
      /\ fst (validate_dns sample_world
                (mkArgs "example.com" "out.txt" false (Some "127.1")) [])
         = Ret tt)
  /\ (valid_ipv4 "1.2.3.4 x" = false
      /\ inet_aton sample_world "1.2.3.4 x" = true
      /\ fst (validate_dns sample_world
                (mkArgs "example.com" "out.txt" false (Some "1.2.3.4 x")) [])
         = Ret tt).
Proof.
  repeat split; try reflexivity; cbn; tauto.
Qed.

(** C6, amended, on a machine whose [socket.inet_aton] is the C
    library's.  A [-d] value in dotted-decimal form is accepted.  The
    values accepted are the empty one, which is not checked, and those
    [inet_aton] takes.  A non-empty value that [inet_aton] refuses is not
    in dotted-decimal form, and [main] prints the error on standard error
    and exits with code 1, and that is all it does: no query, no file. *)
Theorem dns_argument_validation :
  forall w args d t,
    libc_inet_aton w ->
    dns args = Some d ->
    (valid_ipv4 d = true -> fst (validate_dns w args t) = Ret tt)
    /\ (fst (validate_dns w args t) = Ret tt
        <-> d = "" \/ inet_aton_libc d = true)
    /\ (d <> "" ->
        inet_aton_libc d = false ->
        valid_ipv4 d = false
        /\ main w args t
           = (Exit 1%Z,
              (t ++ [Eprint ("Error: Invalid DNS server IP address: " ++ d)])
              %list)).
Proof.
  intros w args d t Hlibc Hd.
  assert (Hacc : fst (validate_dns w args t) = Ret tt
                 <-> d = "" \/ inet_aton_libc d = true).
  { unfold validate_dns, bind, eprint, emit, sys_exit, ret.
    rewrite Hd. cbn [py_bool the]. destruct d as [|c d']; cbn [truthy].
    - split; auto.
    - rewrite Hlibc. destruct (inet_aton_libc (String c d')).
      + destruct (negb (DNS_AVAILABLE w)); cbn; split; auto.
      + cbn. split; [discriminate | intros [H|H]; discriminate]. }
  split; [| split; [exact Hacc |]].
  - intros Hvalid. apply Hacc. right. now apply valid_ipv4_accepted.
  - intros Hne Hbad. split.
    + destruct (valid_ipv4 d) eqn:Hv; [| reflexivity].
      apply valid_ipv4_accepted in Hv. congruence.
    + assert (Ht : py_bool (dns args) = true).
      { rewrite Hd. destruct d; [congruence | reflexivity]. }
      unfold main, main_lookups, validate_dns, bind, eprint, emit, sys_exit,
        ret.
      rewrite Ht, Hd. cbn [the]. rewrite Hlibc, Hbad. reflexivity.
Qed.

Lemma dns_argument_validation_witness :
  valid_ipv4 "999.999.999.999" = false
  /\ main sample_world
       (mkArgs "hosts.txt" "out.txt" false (Some "999.999.999.999")) []
     = (Exit 1%Z,
        [Eprint "Error: Invalid DNS server IP address: 999.999.999.999"]).
Proof.
  refine (proj2 (proj2 (dns_argument_validation sample_world
                          (mkArgs "hosts.txt" "out.txt" false
                             (Some "999.999.999.999"))
                          "999.999.999.999" [] (fun _ => eq_refl) eq_refl))
            _ eq_refl).
  discriminate.
Defined.

(** [main] as one sequence of steps. *)
Lemma main_steps :
  forall w args t,
    main w args t
    = (validate_dns w args ;;
       print ("Reading hostnames from: " ++ input args) ;;
       hostnames <- read_hostnames w (input args) ;;
       results <- main_resolve w args hostnames ;;
       write_results w results (output args) (verbose args) (dns args) ;;
       sys_exit (if (failed_count results =? 0)%Z then 0%Z else 1%Z)) t.
Proof.
  intros w args t. unfold main, main_lookups.
  rewrite bind_assoc. apply bind_ext. intros _ t1.
  rewrite bind_assoc. apply bind_ext. intros _ t2.
  now rewrite bind_assoc.
Qed.

(** Once the hostname list is not empty, nothing in the rest of [main]
    prints the message of the empty-list exit. *)
Lemma main_rest_emits :
  forall w args host rest,
    emits not_empty_list_message
      (results <- main_resolve w args (host :: rest) ;;
       write_results w results (output args) (verbose args) (dns args) ;;
       @sys_exit unit (if (failed_count results =? 0)%Z then 0%Z else 1%Z)).
Proof.
  intros w args host rest.
  apply emits_bind; [apply main_resolve_emits | intros results].
  apply emits_bind; [apply write_results_emits | intros _].
  apply emits_sys_exit.
Qed.

(** C9: when the file is not found the hostname list is the argument
    itself, untouched; and [main] takes the empty-list exit, with code 1,
    exactly when its input is a file that opens and has only blank lines
    (given that the [-d] check lets it through). *)
Theorem empty_list_exit_needs_blank_file :
  forall w args,
    (forall e t,
        open_read w (input args) = Raises e ->
        isinstance e FileNotFoundError = true ->
        read_hostnames w (input args) t = (Ret [input args], t))
    /\ (In (Eprint "No hostnames found to lookup") (snd (main w args [])) ->
        fst (main w args []) = Exit 1%Z
        /\ exists content,
            open_read w (input args) = Returns content
            /\ forallb blank (readlines content) = true)
    /\ (forall content,
           open_read w (input args) = Returns content ->
           forallb blank (readlines content) = true ->
           fst (validate_dns w args []) = Ret tt ->
           fst (main w args []) = Exit 1%Z
           /\ In (Eprint "No hostnames found to lookup")
                (snd (main w args []))).
Proof.
  intros w args. split; [| split].
  - intros e t He Hfnf. rewrite read_hostnames_cases, He, Hfnf. reflexivity.
  - destruct (main w args []) as [r tf] eqn:Hrun. cbn [fst snd].
    rewrite main_steps in Hrun. unfold bind at 1 in Hrun.
    destruct (validate_dns w args []) as [[[]|e|c] t1] eqn:Ev;
      apply validate_dns_emits in Ev as [d1 [-> F1]]; cbn [app] in Hrun;
      try (injection Hrun as <- <-; intros Hin;
           now destruct (quiet_trace d1 F1)).
    unfold bind at 1, print at 1, emit at 1 in Hrun.
    unfold bind at 1 in Hrun. rewrite read_hostnames_cases in Hrun.
    assert (F2 : Forall not_empty_list_message
                   (d1 ++ [Print ("Reading hostnames from: " ++ input args)])).
    { apply Forall_app. split; [exact F1 |]. repeat constructor. other_event. }
    destruct (open_read w (input args)) as [content|e] eqn:Eopen.
    + destruct (map strip _) as [|host rest] eqn:Ehosts.
      * intros _. apply map_eq_nil in Ehosts.
        apply filter_nil_forallb in Ehosts.
        injection Hrun as <- _. eauto.
      * apply main_rest_emits in Hrun as [d3 [-> F3]]. intros Hin.
        destruct (quiet_trace _ (proj2 (Forall_app _ _ _) (conj F2 F3)) Hin).
    + destruct (isinstance e FileNotFoundError);
        [| destruct (isinstance e Exception)].
      * apply main_rest_emits in Hrun as [d3 [-> F3]]. intros Hin.
        destruct (quiet_trace _ (proj2 (Forall_app _ _ _) (conj F2 F3)) Hin).
      * injection Hrun as <- <-. intros Hin. exfalso. revert Hin.
        apply quiet_trace. apply Forall_app. split; [exact F2 |].
        repeat constructor. other_event.
      * injection Hrun as <- <-. intros Hin.
        destruct (quiet_trace _ F2 Hin).
  - intros content Hopen Hblank Hvalid.
    destruct (validate_dns w args []) as [[[]|e|c] t1] eqn:Ev;
      try discriminate.
    assert (Hm : main w args []
                 = (Exit 1%Z,
                    ((t1 ++ [Print ("Reading hostnames from: " ++ input args)])
                     ++ [Eprint "No hostnames found to lookup"])%list)).
    { rewrite main_steps. unfold bind at 1. rewrite Ev.
      unfold bind at 1, print at 1, emit at 1. unfold bind at 1.
      rewrite read_hostnames_cases, Hopen.
      rewrite (forallb_filter_nil _ _ _ Hblank). reflexivity. }
    rewrite Hm. cbn [fst snd].
    split; [reflexivity |]. apply in_or_app. right. now left.
Qed.

Lemma empty_list_exit_needs_blank_file_witness :
  fst (main sample_world (mkArgs "blank.txt" "out.txt" false None) [])
  = Exit 1%Z
  /\ In (Eprint "No hostnames found to lookup")
       (snd (main sample_world (mkArgs "blank.txt" "out.txt" false None) [])).
Proof.
  exact (proj2 (proj2 (empty_list_exit_needs_blank_file sample_world
                         (mkArgs "blank.txt" "out.txt" false None)))
           _ eq_refl eq_refl eq_refl).
Defined.

(** ** The report writer: [write_results] *)

Lemma bind_ret_inv :
  forall A B (m : M A) (f : A -> M B) t b t',
    bind m f t = (Ret b, t') ->
    exists a t1, m t = (Ret a, t1) /\ f a t1 = (Ret b, t').
Proof.
  intros A B m f t b t' H. unfold bind in H.
  destruct (m t) as [[a|e|c] t1]; try discriminate. eauto.
Qed.

Lemma fwrite_ret_inv :
  forall w path s t u t',
    fwrite w path s t = (Ret u, t') -> t' = (t ++ [FWrite path s])%list.
Proof.
  intros w path s t u t' H. unfold fwrite, emit in H.
  destruct (write_error w t path s); [discriminate |].
  now injection H as _ <-.
Qed.


(** The loop of lines 103-108, when it ends without an exception. *)
Lemma body_loop_ret_inv :
  forall w path (verbose : bool) results t t',
    for_each results
      (fun r : LookupResult =>
         let line := result_line r in
         fwrite w path line ;;
         if verbose then print (strip line) else ret tt) t
    = (Ret tt, t') ->
    t' = (t ++ body_events path verbose results)%list.
Proof.
  intros w path verbose results.
  induction results as [|r rs IH]; intros t t' H;
    cbn [for_each body_events flat_map] in *.
  - injection H as <-. now rewrite app_nil_r.
  - apply bind_ret_inv in H as [[] [t1 [H1 H2]]].
    apply bind_ret_inv in H1 as [[] [t2 [Hw Hp]]].
    apply fwrite_ret_inv in Hw as ->.
    apply IH in H2 as ->. fold (body_events path verbose rs).
    destruct verbose; unfold print, emit, ret in Hp; injection Hp as <-;
      cbn [app]; now rewrite <- !app_assoc.
Qed.


Lemma file_writes_app :
  forall path t1 t2 acc,
    file_writes path (t1 ++ t2)%list acc
    = file_writes path t2 (file_writes path t1 acc).
Proof.
  intros path t1. induction t1 as [|e t1 IH]; intros t2 acc; [reflexivity|].
  destruct e; cbn [app file_writes]; apply IH.
Qed.

Lemma file_writes_body :
  forall path verbose results acc,
    file_writes path (body_events path verbose results) acc
    = (acc ++ map result_line results)%list.
Proof.
  intros path verbose results.
  induction results as [|r rs IH]; intros acc; cbn [body_events flat_map map].
  - cbn. now rewrite app_nil_r.
  - cbn [app file_writes]. rewrite String.eqb_refl.
    destruct verbose; cbn [app file_writes]; fold (body_events path true rs);
      fold (body_events path false rs); rewrite IH;
      now rewrite <- app_assoc.
Qed.


Lemma count_partition :
  forall (A : Type) (f : A -> bool) (l : list A),
    (List.length (filter f l)
     + List.length (filter (fun a => negb (f a)) l))%nat
    = List.length l.
Proof.
  intros A f l. induction l as [|a l IH]; cbn; [reflexivity|].
  destruct (f a); cbn; lia.
Qed.

(** No [except] clause of [write_results] returns. *)
Lemma write_results_ret_inv :
  forall w results output_file verbose dns_server t t',
    write_results w results output_file verbose dns_server t = (Ret tt, t') ->
    open_write w output_file = None
    /\ t' = (t ++ report_events w results output_file verbose dns_server)%list.
Proof.
  intros w results output_file verbose dns_server t t' H.
  unfold write_results, try_except in H.
  match type of H with
  | match ?body t with _ => _ end = _ =>
      destruct (body t) as [[[]|e|c] t1] eqn:Hbody
  end.
  - injection H as <-.
    apply bind_ret_inv in Hbody as [[] [t2 [Hwith Hprint]]].
    unfold print, emit in Hprint. injection Hprint as <-.
    unfold with_file in Hwith.
    apply bind_ret_inv in Hwith as [[] [t3 [Hopen Hblock]]].
    unfold fopen in Hopen.
    destruct (open_write w output_file) as [e|]; [discriminate |].
    unfold emit in Hopen. injection Hopen as <-.
    split; [reflexivity |].
    match type of Hblock with
    | match ?b ?t0 with _ => _ end = _ =>
        destruct (b t0) as [[[]|e|c] t4] eqn:Hb
    end;
      destruct (close_error w t4 output_file); try discriminate.
    injection Hblock as <-.
    apply bind_ret_inv in Hb as [[] [t5 [H1 Hb]]].
    apply fwrite_ret_inv in H1 as ->.
    apply bind_ret_inv in Hb as [[] [t5 [H2 Hb]]].
    assert (H2' : t5 = (((t ++ [FOpen output_file])
                         ++ [FWrite output_file
                               ("DNS Lookup Results - " ++ now w ++ nl)])
                        ++ [FWrite output_file
                              ("DNS Server: "
                               ++ (if py_bool dns_server then the dns_server
                                   else "System Default") ++ nl)])%list).
    { destruct (py_bool dns_server); now apply fwrite_ret_inv in H2. }
    subst t5. clear H2.
    apply bind_ret_inv in Hb as [[] [t5 [H3 Hb]]].
    apply fwrite_ret_inv in H3 as ->.
    apply bind_ret_inv in Hb as [[] [t5 [H4 Hb]]].
    apply body_loop_ret_inv in H4 as ->.
    apply bind_ret_inv in Hb as [[] [t5 [H5 Hb]]].
    apply fwrite_ret_inv in H5 as ->.
    apply bind_ret_inv in Hb as [[] [t5 [H6 Hb]]].
    apply fwrite_ret_inv in H6 as ->.
    apply bind_ret_inv in Hb as [[] [t5 [H7 Hb]]].
    apply fwrite_ret_inv in H7 as ->.
    apply fwrite_ret_inv in Hb as ->.
    unfold report_events, divider. rewrite <- !app_assoc. reflexivity.
  - cbn [handle] in H. unfold ret at 1 in H.
    destruct (isinstance e Exception); [| discriminate].
    unfold bind, eprint, emit, sys_exit in H. discriminate.
  - discriminate.
Qed.


(** What the report file holds after [report_events]. *)
Lemma file_writes_report :
  forall w results output_file verbose dns_server t,
    file_writes output_file
      (t ++ report_events w results output_file verbose dns_server)%list []
    = List.app
        ["DNS Lookup Results - " ++ now w ++ nl;
         "DNS Server: "
         ++ (if py_bool dns_server then the dns_server else "System Default")
         ++ nl;
         divider ++ nl ++ nl]
        (List.app
           (map result_line results)
           [nl ++ divider ++ nl;
            "Total lookups: " ++ str_of_int (len results) ++ nl;
            "Successful: "
            ++ str_of_int
                 (py_sum (map (fun _ => 1%Z) (filter success results)))
            ++ nl;
            "Failed: "
            ++ str_of_int
                 (len results
                  - py_sum (map (fun _ => 1%Z) (filter success results)))
            ++ nl]).
Proof.
  intros w results output_file verbose dns_server t.
  unfold report_events. rewrite !file_writes_app.
  cbn [file_writes]. rewrite !String.eqb_refl.
  rewrite file_writes_body. cbn [app]. now rewrite <- !app_assoc.
Qed.



(** On a device that takes the writes and fails when the file is flushed,
    the report is not written: the error goes to standard error and the
    process exits with code 1. *)
Example write_results_full_device :
  fst (write_results sample_world
         [mkResult "example.com" "93.184.216.34" true]
         "/dev/full" false None [])
  = Exit 1%Z
  /\ In (Eprint
           "Error writing to output file: [Errno 28] No space left on device")
       (snd (write_results sample_world
               [mkResult "example.com" "93.184.216.34" true]
               "/dev/full" false None [])).
Proof.
  split; [reflexivity |]. cbn. tauto.
Qed.

(** * Further properties *)

(** ** [perform_dns_lookup]: the system path, provenance, queries *)

(** X1: with dnspython present and no server given, the system resolver is
    asked once and its outcome classified: the address on success;
    [socket.gaierror] to ["Error: <message>"]; the three dnspython classes
    to their fixed messages; any other exception below [Exception] to
    ["Unexpected error: <message>"]; anything else propagates. *)
Theorem system_lookup_classification :
  forall w host dns_server t,
    py_bool dns_server = false ->
    DNS_AVAILABLE w = true ->
    perform_dns_lookup w host dns_server t
    = (match gethostbyname w t host with
       | Returns address => Ret (mkResult host address true)
       | Raises e =>
           if isinstance e NXDOMAIN then
             Ret (mkResult host "Error: Domain does not exist" false)
           else if isinstance e NoAnswer then
             Ret (mkResult host "Error: No A record found" false)
           else if isinstance e Timeout then
             Ret (mkResult host "Error: DNS query timeout" false)
           else if isinstance e gaierror then
             Ret (mkResult host ("Error: " ++ exn_str e) false)
           else if isinstance e Exception then
             Ret (mkResult host ("Unexpected error: " ++ exn_str e) false)
           else Raise e
       end,
       (t ++ [Query host None])%list).
Proof.
  intros w host dns_server t Hsrv Hdns.
  unfold_lookup. rewrite Hsrv, Hdns. cbn.
  destruct (gethostbyname w t host) as [a|e]; cbn; [reflexivity|].
  by_class e; reflexivity.
Qed.

Lemma system_lookup_classification_witness :
  perform_dns_lookup sample_world "gone.invalid" None []
  = (Ret (mkResult "gone.invalid"
            "Error: [Errno -2] Name or service not known" false),
     [Query "gone.invalid" None]).
Proof.
  exact (system_lookup_classification sample_world "gone.invalid" None []
           eq_refl eq_refl).
Defined.

(** X2: a result with [success = true] carries an address a resolver
    returned for this very call: the first answer of the given server, or
    the answer of the system resolver when no server is given. *)
Theorem successful_lookup_provenance :
  forall w host dns_server t r t',
    perform_dns_lookup w host dns_server t = (Ret r, t') ->
    success r = true ->
    (py_bool dns_server = true
     /\ DNS_AVAILABLE w = true
     /\ exists rest,
         resolver_resolve w t (the dns_server) host
         = Returns (ip_address r :: rest))
    \/ (py_bool dns_server = false
        /\ gethostbyname w t host = Returns (ip_address r)).
Proof.
  intros w host dns_server t r t'.
  unfold_lookup.
  destruct (py_bool dns_server), (DNS_AVAILABLE w) eqn:Hdns; cbn.
  - destruct (resolver_setup w (the dns_server)) as [e|]; cbn.
    { by_class e; rewrite ?Hdns; intros [= <- <-]; discriminate. }
    destruct (resolver_resolve w t (the dns_server) host) as [[|a l]|e];
      cbn; rewrite ?Hdns; cbn.
    + intros [= <- <-]. discriminate.
    + intros [= <- <-] _. left. eauto.
    + by_class e; rewrite ?Hdns; intros [= <- <-]; discriminate.
  - intros [= <- <-]. discriminate.
  - destruct (gethostbyname w t host) as [a|e]; cbn; rewrite ?Hdns; cbn.
    + intros [= <- <-] _. right. auto.
    + by_class e; rewrite ?Hdns; intros [= <- <-]; discriminate.
  - destruct (gethostbyname w t host) as [a|e]; cbn; rewrite ?Hdns; cbn.
    + intros [= <- <-] _. right. auto.
    + discriminate.
Qed.

Lemma successful_lookup_provenance_witness :
  (py_bool (Some "8.8.8.8") = true
   /\ DNS_AVAILABLE sample_world = true
   /\ exists rest,
       resolver_resolve sample_world [] "8.8.8.8" "example.com"
       = Returns ("93.184.216.34" :: rest))
  \/ (py_bool (Some "8.8.8.8") = false
      /\ gethostbyname sample_world [] "example.com"
         = Returns "93.184.216.34").
Proof.
  exact (successful_lookup_provenance sample_world "example.com"
           (Some "8.8.8.8") []
           (mkResult "example.com" "93.184.216.34" true) _
           eq_refl eq_refl).
Defined.

(** The trace after one call of [perform_dns_lookup], however it ends. *)
Lemma lookup_trace_after :
  forall w host dns_server t,
    snd (perform_dns_lookup w host dns_server t)
    = (t ++ lookup_queries w dns_server host)%list.
Proof.
  intros w host dns_server t.
  unfold lookup_queries. unfold_lookup.
  destruct (py_bool dns_server), (DNS_AVAILABLE w) eqn:Hdns; cbn.
  - destruct (resolver_setup w (the dns_server)) as [e|]; cbn.
    { rewrite app_nil_r. by_class e; rewrite ?Hdns; reflexivity. }
    destruct (resolver_resolve w t (the dns_server) host) as [[|a l]|e];
      cbn; rewrite ?Hdns; cbn; try reflexivity.
    by_class e; rewrite ?Hdns; reflexivity.
  - now rewrite app_nil_r.
  - destruct (gethostbyname w t host) as [a|e]; cbn; rewrite ?Hdns; cbn;
      try reflexivity.
    by_class e; rewrite ?Hdns; reflexivity.
  - destruct (gethostbyname w t host) as [a|e]; cbn; rewrite ?Hdns; cbn;
      reflexivity.
Qed.

(** X3: however a call of [perform_dns_lookup] ends, it has sent exactly
    the query of [lookup_queries] and nothing else: a failed query is not
    retried, and no other resolver is tried in its place. *)
Theorem lookup_sends_one_query :
  forall w host dns_server t,
    snd (perform_dns_lookup w host dns_server t)
    = (t ++ lookup_queries w dns_server host)%list
    /\ (List.length (lookup_queries w dns_server host) <= 1)%nat.
Proof.
  intros w host dns_server t. split; [apply lookup_trace_after |].
  unfold lookup_queries.
  destruct (py_bool dns_server), (DNS_AVAILABLE w); cbn; auto.
  destruct (resolver_setup w (the dns_server)); cbn; auto.
Qed.

(** ** The lookup loop of [main] *)

Lemma stdout_of_app :
  forall t1 t2, stdout_of (t1 ++ t2)%list = (stdout_of t1 ++ stdout_of t2)%list.
Proof.
  intros t1 t2. induction t1 as [|e t1 IH]; [reflexivity|].
  destruct e; cbn; now rewrite ?IH.
Qed.

Lemma queries_of_app :
  forall t1 t2,
    queries_of (t1 ++ t2)%list = (queries_of t1 ++ queries_of t2)%list.
Proof.
  intros t1 t2. induction t1 as [|e t1 IH]; [reflexivity|].
  destruct e; cbn; now rewrite ?IH.
Qed.

Lemma stdout_of_lookup_queries :
  forall w dns_server host, stdout_of (lookup_queries w dns_server host) = [].
Proof.
  intros w dns_server host. unfold lookup_queries.
  destruct (py_bool dns_server), (DNS_AVAILABLE w); try reflexivity.
  cbn. destruct (resolver_setup w (the dns_server)); reflexivity.
Qed.

(** The events of the loop of lines 190-196, for the results it built. *)
Lemma lookup_loop_trace :
  forall w dns_server hostnames acc t results t',
    lookup_loop w dns_server hostnames acc t = (Ret results, t') ->
    exists rs,
      results = (acc ++ rs)%list
      /\ map hostname rs = hostnames
      /\ t' = (t ++ flat_map
                      (fun r =>
                         lookup_queries w dns_server (hostname r)
                         ++ [Print (progress_line r)])
                      rs)%list.
Proof.
  intros w dns_server hostnames.
  induction hostnames as [|host rest IH]; intros acc t results t' H.
  - injection H as <- <-. exists []. now rewrite !app_nil_r.
  - cbn [lookup_loop] in H. unfold bind at 1 in H.
    pose proof (lookup_trace_after w host dns_server t) as Ht.
    destruct (perform_dns_lookup w host dns_server t) as [[r|e|c] t1] eqn:E;
      try discriminate.
    cbn [snd] in Ht. subst t1.
    destruct (lookup_returned_cases _ _ _ _ _ _ E) as [Hhost _].
    unfold bind at 1, print_marked at 1 in H.
    destruct (stdout_mark_error w); [discriminate |].
    unfold print at 1, emit at 1 in H.
    apply IH in H as [rs [-> [Hmap ->]]].
    exists (r :: rs). cbn [map flat_map]. unfold progress_line at 2.
    rewrite Hhost, Hmap. rewrite <- !app_assoc. auto.
Qed.

(** X4: the loop builds one result per hostname, in the order of the
    hostnames, each for its own hostname. *)
Theorem lookup_results_follow_hostnames :
  forall w dns_server hostnames t results t',
    lookup_loop w dns_server hostnames [] t = (Ret results, t') ->
    map hostname results = hostnames
    /\ List.length results = List.length hostnames.
Proof.
  intros w dns_server hostnames t results t' H.
  apply lookup_loop_trace in H as [rs [-> [Hmap _]]]. cbn [app].
  split; [exact Hmap |]. now rewrite <- Hmap, length_map.
Qed.

Lemma lookup_results_follow_hostnames_witness :
  map hostname
    [mkResult "gone.invalid" "Error: Domain does not exist" false;
     mkResult "example.com" "93.184.216.34" true]
  = ["gone.invalid"; "example.com"]
  /\ List.length
       [mkResult "gone.invalid" "Error: Domain does not exist" false;
        mkResult "example.com" "93.184.216.34" true]
     = List.length ["gone.invalid"; "example.com"].
Proof.
  exact (lookup_results_follow_hostnames sample_world (Some "8.8.8.8")
           ["gone.invalid"; "example.com"] [] _ _ eq_refl).
Defined.

(** X5: the loop prints one progress line per result, in order: the check
    mark for a success, the cross for a failure, a space and the
    hostname; it prints nothing else. *)
Theorem lookup_progress_lines :
  forall w dns_server hostnames t results t',
    lookup_loop w dns_server hostnames [] t = (Ret results, t') ->
    stdout_of t' = (stdout_of t ++ map progress_line results)%list.
Proof.
  intros w dns_server hostnames t results t' H.
  apply lookup_loop_trace in H as [rs [-> [_ ->]]]. cbn [app].
  rewrite stdout_of_app. f_equal.
  induction rs as [|r rs IH]; [reflexivity|].
  cbn [flat_map map]. rewrite !stdout_of_app, stdout_of_lookup_queries, IH.
  reflexivity.
Qed.

Lemma lookup_progress_lines_witness :
  stdout_of
    (snd (lookup_loop sample_world None ["example.com"; "gone.invalid"] [] []))
  = (stdout_of []
     ++ map progress_line
          [mkResult "example.com" "93.184.216.34" true;
           mkResult "gone.invalid"
             "Error: [Errno -2] Name or service not known" false])%list.
Proof.
  exact (lookup_progress_lines sample_world None
           ["example.com"; "gone.invalid"] [] _ _ eq_refl).
Defined.

(** X6: when the loop completes, the calls of a resolver it made are one
    per hostname, in the order of the hostnames: of [resolve] with the
    given server when dnspython is present and takes the server as a
    nameserver, of [gethostbyname] when no server is given; with a server
    given it made none when dnspython is absent or refuses the server. *)
Theorem lookup_queries_follow_hostnames :
  forall w dns_server hostnames t results t',
    lookup_loop w dns_server hostnames [] t = (Ret results, t') ->
    queries_of t'
    = (queries_of t
       ++ (if py_bool dns_server then
             if DNS_AVAILABLE w then
               match resolver_setup w (the dns_server) with
               | None => map (fun h => (h, Some (the dns_server))) hostnames
               | Some _ => []
               end
             else []
           else map (fun h => (h, None)) hostnames))%list.
Proof.
  intros w dns_server hostnames t results t' H.
  apply lookup_loop_trace in H as [rs [_ [<- ->]]].
  rewrite queries_of_app. f_equal. unfold lookup_queries.
  induction rs as [|r rs IH]; cbn [flat_map map].
  - destruct (py_bool dns_server), (DNS_AVAILABLE w); try reflexivity.
    now destruct (resolver_setup w (the dns_server)).
  - rewrite !queries_of_app, IH.
    destruct (py_bool dns_server), (DNS_AVAILABLE w); try reflexivity.
    cbn. now destruct (resolver_setup w (the dns_server)).
Qed.

Lemma lookup_queries_follow_hostnames_witness :
  queries_of
    (snd (lookup_loop sample_world (Some "8.8.8.8")
            ["example.com"; "gone.invalid"] [] []))
  = [("example.com", Some "8.8.8.8"); ("gone.invalid", Some "8.8.8.8")].
Proof.
  exact (lookup_queries_follow_hostnames sample_world (Some "8.8.8.8")
           ["example.com"; "gone.invalid"] [] _ _ eq_refl).
Defined.

(** With a server that passes [inet_aton] and that dnspython refuses,
    every lookup fails and [resolve] is never called. *)
Example lookup_refused_server :
  inet_aton sample_world "127.1" = true
  /\ lookup_loop sample_world (Some "127.1") ["example.com"] [] []
     = (Ret [mkResult "example.com"
               ("Unexpected error: "
                ++ "nameserver is not an IP address or a valid https URL")
               false],
        [Print (progress_line
                  (mkResult "example.com" EmptyString false))]).
Proof.
  split; reflexivity.
Qed.

(** ** [read_hostnames]: what a file can give *)

Lemma rstrip_cons :
  forall c s,
    rstrip (String c s)
    = match rstrip s with
      | EmptyString => if isspace c then EmptyString else String c EmptyString
      | r => String c r
      end.
Proof. reflexivity. Qed.

Lemma rstrip_idem : forall s, rstrip (rstrip s) = rstrip s.
Proof.
  induction s as [|c s IH]; [reflexivity|].
  rewrite rstrip_cons. destruct (rstrip s) as [|c' r] eqn:Hr.
  - destruct (isspace c) eqn:Hc; [reflexivity|]. cbn. now rewrite Hc.
  - rewrite rstrip_cons, IH. reflexivity.
Qed.

Lemma lstrip_blank : forall s, blank s = true -> lstrip s = "".
Proof.
  unfold blank. induction s as [|c s IH]; cbn; [reflexivity|].
  destruct (isspace c); cbn; [exact IH | discriminate].
Qed.

Lemma rstrip_blank : forall s, blank s = true -> rstrip s = "".
Proof.
  unfold blank. induction s as [|c s IH]; cbn; [reflexivity|].
  destruct (isspace c); cbn; [| discriminate].
  intros H. now rewrite (IH H).
Qed.

Lemma blank_app :
  forall a b, blank (a ++ b) = blank a && blank b.
Proof.
  unfold blank. induction a as [|c a IH]; intros b; cbn; [reflexivity|].
  now rewrite IH, andb_assoc.
Qed.

Lemma lstrip_app_blank :
  forall x y,
    blank y = true ->
    lstrip (x ++ y) = if blank x then "" else lstrip x ++ y.
Proof.
  intros x y Hy. unfold blank. induction x as [|c x IH]; cbn.
  - now apply lstrip_blank.
  - destruct (isspace c); cbn; [exact IH | reflexivity].
Qed.

Lemma rstrip_app_blank :
  forall x y, blank y = true -> rstrip (x ++ y) = rstrip x.
Proof.
  intros x y Hy. induction x as [|c x IH]; cbn.
  - now apply rstrip_blank.
  - now rewrite IH.
Qed.

(** Whitespace after a line does not change what [strip] leaves of it. *)
Lemma strip_app_blank :
  forall x y, blank y = true -> strip (x ++ y) = strip x.
Proof.
  intros x y Hy. unfold strip. rewrite (lstrip_app_blank x y Hy).
  destruct (blank x) eqn:Hx.
  - now rewrite (lstrip_blank x Hx).
  - now apply rstrip_app_blank.
Qed.

Lemma lstrip_fixed :
  forall s,
    (forall c, first_char s = Some c -> isspace c = false) -> lstrip s = s.
Proof.
  intros [|c s] H; cbn; [reflexivity|].
  now rewrite (H c eq_refl).
Qed.

Lemma strip_idem : forall s, strip (strip s) = strip s.
Proof.
  intros s. unfold strip at 1.
  rewrite lstrip_fixed.
  - unfold strip. apply rstrip_idem.
  - intros c Hc. apply (strip_edges s). now left.
Qed.

Lemma no_newline_lstrip :
  forall s, no_newline s = true -> no_newline (lstrip s) = true.
Proof.
  unfold no_newline. induction s as [|c s IH]; cbn; [reflexivity|].
  intros H. apply andb_prop in H as [Hc Hs].
  destruct (isspace c); [now apply IH | cbn; now rewrite Hc, Hs].
Qed.

Lemma no_newline_rstrip :
  forall s, no_newline s = true -> no_newline (rstrip s) = true.
Proof.
  unfold no_newline. induction s as [|c s IH]; [reflexivity|].
  cbn [str_forallb]. intros H. apply andb_prop in H as [Hc Hs].
  specialize (IH Hs). rewrite rstrip_cons.
  destruct (rstrip s) as [|c' r].
  - destruct (isspace c); cbn [str_forallb]; [reflexivity | now rewrite Hc].
  - cbn [str_forallb] in *. now rewrite Hc, IH.
Qed.

Lemma no_newline_app :
  forall a b, no_newline (a ++ b) = no_newline a && no_newline b.
Proof.
  unfold no_newline. induction a as [|c a IH]; intros b; cbn; [reflexivity|].
  now rewrite IH, andb_assoc.
Qed.

Lemma blank_nl : blank nl = true.
Proof. reflexivity. Qed.

(** A line of a file is free of newlines up to its terminator. *)
Lemma readlines_from_shape :
  forall s cur,
    no_newline cur = true ->
    Forall (fun l => exists body,
                no_newline body = true /\ (l = body \/ l = body ++ nl))
      (readlines_from cur s).
Proof.
  induction s as [|c s IH]; intros cur Hcur; cbn [readlines_from].
  - destruct cur; constructor; [| constructor]. eauto.
  - destruct (Ascii.eqb c newline) eqn:Hc.
    + apply Ascii.eqb_eq in Hc. subst c. constructor.
      * exists cur. auto.
      * now apply IH.
    + apply IH. rewrite no_newline_app, Hcur. unfold no_newline. cbn.
      now rewrite Hc.
Qed.

Lemma strip_line_no_newline :
  forall l,
    (exists body, no_newline body = true /\ (l = body \/ l = body ++ nl)) ->
    no_newline (strip l) = true.
Proof.
  intros l [body [Hb [-> | ->]]].
  - unfold strip. now apply no_newline_rstrip, no_newline_lstrip.
  - rewrite (strip_app_blank body nl blank_nl).
    unfold strip. now apply no_newline_rstrip, no_newline_lstrip.
Qed.

(** X7: every hostname read from a file is non-empty, is left unchanged by
    [strip] (so it neither starts nor ends with whitespace) and holds no
    newline. *)
Theorem file_hostnames_are_clean :
  forall w input_source t content hostnames t',
    open_read w input_source = Returns content ->
    read_hostnames w input_source t = (Ret hostnames, t') ->
    Forall (fun h =>
              h <> ""
              /\ strip h = h
              /\ (forall c,
                     first_char h = Some c \/ last_char h = Some c ->
                     isspace c = false)
              /\ no_newline h = true)
      hostnames.
Proof.
  intros w input_source t content hostnames t' Hopen Hread.
  rewrite read_hostnames_cases, Hopen in Hread. injection Hread as <- _.
  apply Forall_forall. intros h Hin.
  apply in_map_iff in Hin as [l [<- Hl]].
  apply filter_In in Hl as [Hl Hnb].
  rewrite <- truthy_strip in Hnb.
  split; [| split; [| split]].
  - intros Heq. rewrite Heq in Hnb. discriminate.
  - apply strip_idem.
  - apply strip_edges.
  - apply strip_line_no_newline.
    pose proof (readlines_from_shape content "" eq_refl) as Hshape.
    rewrite Forall_forall in Hshape. now apply Hshape.
Qed.

Lemma file_hostnames_are_clean_witness :
  Forall (fun h =>
            h <> ""
            /\ strip h = h
            /\ (forall c,
                   first_char h = Some c \/ last_char h = Some c ->
                   isspace c = false)
            /\ no_newline h = true)
    ["example.com"; "www.example.org"; "gone.invalid"].
Proof.
  exact (file_hostnames_are_clean sample_world "hosts.txt" [] hosts_txt
           _ [] eq_refl eq_refl).
Defined.

Lemma readlines_from_line :
  forall h cur rest,
    no_newline h = true ->
    readlines_from cur (h ++ nl ++ rest)
    = (cur ++ h ++ nl) :: readlines_from "" rest.
Proof.
  unfold no_newline.
  induction h as [|c h IH]; intros cur rest Hh.
  - reflexivity.
  - cbn [str_forallb] in Hh. apply andb_prop in Hh as [Hc Hh].
    apply negb_true_iff in Hc.
    cbn [append readlines_from]. rewrite Hc, (IH _ _ Hh).
    now rewrite append_assoc.
Qed.

Lemma readlines_hosts_file :
  forall hostnames,
    Forall (fun h => no_newline h = true) hostnames ->
    readlines (hosts_file hostnames) = map (fun h => h ++ nl) hostnames.
Proof.
  unfold readlines, hosts_file.
  induction 1 as [|h hs Hh _ IH]; [reflexivity|].
  cbn [map join fold_right]. fold (join (map (fun h => h ++ nl) hs)).
  rewrite append_assoc, (readlines_from_line h "" _ Hh), IH. reflexivity.
Qed.

(** A text with one hostname per line is read as that list. *)
Lemma hosts_text_read_back :
  forall w input_source t hostnames,
    open_read w input_source = Returns (hosts_file hostnames) ->
    Forall (fun h => h <> "" /\ strip h = h /\ no_newline h = true)
      hostnames ->
    read_hostnames w input_source t = (Ret hostnames, t).
Proof.
  intros w input_source t hostnames Hopen Hclean.
  rewrite read_hostnames_cases, Hopen.
  rewrite readlines_hosts_file
    by (eapply Forall_impl; [| exact Hclean]; cbn; tauto).
  do 2 f_equal. clear Hopen.
  induction Hclean as [|h hs [Hne [Hstrip Hnl]] _ IH]; [reflexivity|].
  cbn [map filter]. rewrite blank_app, blank_nl, andb_true_r.
  assert (Hb : blank h = false).
  { apply negb_true_iff. rewrite <- truthy_strip, Hstrip.
    destruct h; [congruence | reflexivity]. }
  rewrite Hb. cbn [negb map].
  rewrite (strip_app_blank h nl blank_nl), Hstrip, IH. reflexivity.
Qed.

Lemma no_line_break_no_newline :
  forall s, no_line_break s = true -> no_newline s = true.
Proof.
  unfold no_line_break, no_newline.
  induction s as [|c s IH]; [reflexivity |]. cbn [str_forallb].
  intros H. apply andb_prop in H as [Hc Hs].
  apply andb_prop in Hc as [Hc _]. now rewrite Hc, IH.
Qed.

(** X8: round trip.  Hostnames that are non-empty, unchanged by [strip]
    and free of newlines and carriage returns, written one per line,
    make a text that reading leaves as it is (no line end is translated),
    and [read_hostnames] reads that text back as the same list. *)
Theorem hosts_file_round_trip :
  forall w input_source t hostnames,
    open_read w input_source = Returns (hosts_file hostnames) ->
    Forall (fun h => h <> "" /\ strip h = h /\ no_line_break h = true)
      hostnames ->
    read_hostnames w input_source t = (Ret hostnames, t).
Proof.
  intros w input_source t hostnames Hopen Hclean.
  apply hosts_text_read_back; [exact Hopen |].
  eapply Forall_impl; [| exact Hclean]. cbn.
  intros h [Hne [Hstrip Hlb]].
  auto using no_line_break_no_newline.
Qed.

Lemma hosts_file_round_trip_witness :
  read_hostnames sample_world_list "list.txt" []
  = (Ret ["a.example"; "b.example"], []).
Proof.
  apply hosts_file_round_trip; [reflexivity |].
  repeat constructor; discriminate.
Defined.

(** ** [write_results]: failure, echo, and what it leaves alone *)

(** [write_results] when the output file does not open. *)
Lemma write_results_failure :
  forall w results output_file verbose dns_server t e,
    open_write w output_file = Some e ->
    write_results w results output_file verbose dns_server t
    = if isinstance e Exception then
        (Exit 1%Z,
         (t ++ [Eprint ("Error writing to output file: " ++ exn_str e)])%list)
      else (Raise e, t).
Proof.
  intros w results output_file verbose dns_server t e Hopen.
  unfold write_results, try_except, with_file.
  unfold bind at 1. unfold bind at 1. unfold fopen at 1. rewrite Hopen.
  unfold raise, ret, handle, bind, eprint, emit, sys_exit.
  by_class e; reflexivity.
Qed.

(** X9: when the output file cannot be opened, nothing is written or
    printed on standard output: an exception below [Exception] is
    reported on standard error and the process exits with code 1; any
    other exception propagates. *)
Theorem write_results_open_failure :
  forall w results output_file verbose dns_server t e,
    open_write w output_file = Some e ->
    (isinstance e Exception = true ->
     write_results w results output_file verbose dns_server t
     = (Exit 1%Z,
        (t ++ [Eprint ("Error writing to output file: " ++ exn_str e)])%list))
    /\ (isinstance e Exception = false ->
        write_results w results output_file verbose dns_server t
        = (Raise e, t)).
Proof.
  intros w results output_file verbose dns_server t e Hopen.
  rewrite (write_results_failure _ _ _ _ _ _ _ Hopen).
  split; now intros ->.
Qed.

Lemma write_results_open_failure_witness :
  write_results sample_world [] "/" false None []
  = (Exit 1%Z,
     [Eprint "Error writing to output file: [Errno 21] Is a directory: '/'"]).
Proof.
  exact (proj1 (write_results_open_failure sample_world [] "/" false None
                  [] _ eq_refl) eq_refl).
Defined.

Lemma stdout_of_body_events :
  forall path verbose results,
    stdout_of (body_events path verbose results)
    = if verbose then map (fun r => strip (result_line r)) results else [].
Proof.
  intros path verbose results.
  induction results as [|r rs IH]; cbn [body_events flat_map map].
  - now destruct verbose.
  - fold (body_events path verbose rs).
    destruct verbose; cbn [app stdout_of]; now rewrite IH.
Qed.

(** X10: whenever [write_results] returns, it has printed, with
    [verbose], every report line stripped, in order, and then the path of
    the report; without [verbose], the path only. *)
Theorem write_results_echo :
  forall w results output_file verbose dns_server t t',
    write_results w results output_file verbose dns_server t = (Ret tt, t') ->
    stdout_of t'
    = (stdout_of t
       ++ (if verbose then map (fun r => strip (result_line r)) results
           else [])
       ++ [(nl ++ "Results written to: " ++ output_file)%string])%list.
Proof.
  intros w results output_file verbose dns_server t t' H.
  apply write_results_ret_inv in H as [_ ->]. unfold report_events.
  rewrite stdout_of_app. f_equal. cbn [app stdout_of].
  rewrite stdout_of_app, stdout_of_body_events. reflexivity.
Qed.

Lemma write_results_echo_witness :
  stdout_of
    (snd (write_results sample_world
            [mkResult "example.com" "93.184.216.34" true]
            "out.txt" true None []))
  = ["example.com / 93.184.216.34"; nl ++ "Results written to: out.txt"].
Proof.
  exact (write_results_echo sample_world
           [mkResult "example.com" "93.184.216.34" true]
           "out.txt" true None [] _ eq_refl).
Defined.

Section WriteResultsEmits.

Variable P : event -> Prop.
Variable w : World.
Variable output_file : string.

Hypothesis P_open : P (FOpen output_file).
Hypothesis P_write : forall s, P (FWrite output_file s).
Hypothesis P_print : forall s, P (Print s).
Hypothesis P_eprint : forall s, P (Eprint s).

(** Every event of [write_results] is the opening of the output file, a
    write to it, or a line on the console. *)
Lemma write_results_emits_any :
  forall results verbose dns_server,
    emits P (write_results w results output_file verbose dns_server).
Proof.
  intros results verbose dns_server.
  unfold write_results, print, eprint.
  apply emits_try_except.
  - apply emits_bind; [| intros _; apply emits_emit, P_print].
    apply with_file_emits; [exact P_open |].
    apply emits_bind; [apply fwrite_emits, P_write | intros _].
    apply emits_bind; [| intros _].
    { destruct (py_bool dns_server); apply fwrite_emits, P_write. }
    apply emits_bind; [apply fwrite_emits, P_write | intros _].
    apply emits_bind; [| intros _].
    { apply emits_for_each. intros r.
      apply emits_bind; [apply fwrite_emits, P_write | intros _].
      destruct verbose; [apply emits_emit, P_print | apply emits_ret]. }
    repeat (apply emits_bind; [apply fwrite_emits, P_write | intros _]).
    apply fwrite_emits, P_write.
  - apply Forall_cons; [split; [apply emits_ret | intros e] | apply Forall_nil].
    cbn [snd].
    apply emits_bind; [apply emits_emit, P_eprint | intros _].
    apply emits_sys_exit.
Qed.

End WriteResultsEmits.

Lemma left_alone :
  forall other t d acc,
    Forall (leaves_alone other) d ->
    file_writes other (t ++ d)%list acc = file_writes other t acc
    /\ queries_of (t ++ d)%list = queries_of t.
Proof.
  intros other t d acc H. rewrite file_writes_app, queries_of_app.
  generalize (file_writes other t acc) as acc0.
  induction H as [|e d He _ IH]; intros acc0.
  - now rewrite app_nil_r.
  - destruct e; cbn [leaves_alone] in He; cbn [file_writes queries_of];
      try apply IH; try contradiction.
    + apply String.eqb_neq in He. rewrite He. apply IH.
    + apply String.eqb_neq in He. rewrite He. apply IH.
Qed.

(** X11: however [write_results] ends, it has sent no query and has left
    every file other than the output file as it was. *)
Theorem write_results_touches_only_output :
  forall w results output_file verbose dns_server t other acc,
    other <> output_file ->
    file_writes other
      (snd (write_results w results output_file verbose dns_server t)) acc
    = file_writes other t acc
    /\ queries_of
         (snd (write_results w results output_file verbose dns_server t))
       = queries_of t.
Proof.
  intros w results output_file verbose dns_server t other acc Hne.
  destruct (write_results w results output_file verbose dns_server t)
    as [r t'] eqn:H. cbn [snd].
  apply (write_results_emits_any (leaves_alone other)) in H as [d [-> Hd]];
    cbn; auto.
  now apply left_alone.
Qed.

Lemma write_results_touches_only_output_witness :
  file_writes "hosts.txt"
    (snd (write_results sample_world
            [mkResult "example.com" "93.184.216.34" true]
            "out.txt" true None [FOpen "hosts.txt"; FWrite "hosts.txt" "x"]))
    []
  = ["x"]
  /\ queries_of
       (snd (write_results sample_world
               [mkResult "example.com" "93.184.216.34" true]
               "out.txt" true None
               [FOpen "hosts.txt"; FWrite "hosts.txt" "x"]))
     = [].
Proof.
  apply (write_results_touches_only_output sample_world
           [mkResult "example.com" "93.184.216.34" true]
           "out.txt" true None [FOpen "hosts.txt"; FWrite "hosts.txt" "x"]
           "hosts.txt" []).
  discriminate.
Defined.

(** The number after ["Failed: "] (line 115) and the number the exit code
    is computed from (line 202) are the same number. *)
Lemma failed_count_is_difference :
  forall results,
    (len results - py_sum (map (fun _ => 1%Z) (filter success results)))%Z
    = failed_count results.
Proof.
  intros results. unfold failed_count, len. rewrite !py_sum_ones.
  pose proof (count_partition _ success results). lia.
Qed.

Lemma last_of_four :
  forall (A : Type) (l : list A) (a b c d x : A),
    last (l ++ [a; b; c; d]) x = d.
Proof.
  intros A l a b c d x. change [a; b; c; d] with ([a; b; c] ++ [d])%list.
  rewrite app_assoc. apply last_last.
Qed.

Lemma report_last_write :
  forall w results output_file verbose dns_server t,
    last (file_writes output_file
            (t ++ report_events w results output_file verbose dns_server)%list
            [])
      ""
    = "Failed: " ++ str_of_int (failed_count results) ++ nl.
Proof.
  intros w results output_file verbose dns_server t.
  rewrite file_writes_report, failed_count_is_difference.
  rewrite app_assoc. apply last_of_four.
Qed.

(** ** [main]: how the steps compose *)

(** X13: when the report cannot be written, [main] exits with code 1
    whatever the lookups gave, also when all of them succeeded. *)
Theorem main_write_failure :
  forall w args t0 results t1 e,
    main_lookups w args t0 = (Ret results, t1) ->
    open_write w (output args) = Some e ->
    isinstance e Exception = true ->
    main w args t0
    = (Exit 1%Z,
       (t1 ++ [Eprint ("Error writing to output file: " ++ exn_str e)])%list).
Proof.
  intros w args t0 results t1 e Hlook Hopen He.
  unfold main. unfold bind at 1. rewrite Hlook.
  unfold bind at 1. rewrite (write_results_failure _ _ _ _ _ _ _ Hopen), He.
  reflexivity.
Qed.

Lemma main_write_failure_witness :
  main sample_world (mkArgs "example.com" "/" false None) []
  = (Exit 1%Z,
     [Print "Reading hostnames from: example.com";
      Print ("Performing DNS lookups for 1 hostname(s)..." ++ nl);
      Query "example.com" None;
      Print (progress_line (mkResult "example.com" "93.184.216.34" true));
      Eprint "Error writing to output file: [Errno 21] Is a directory: '/'"]).
Proof.
  exact (main_write_failure sample_world
           (mkArgs "example.com" "/" false None) []
           [mkResult "example.com" "93.184.216.34" true] _ _
           eq_refl eq_refl eq_refl).
Defined.

(** X14: when the input exists but cannot be read, [main] reports it on
    standard error and exits with code 1 at once: no query is sent and no
    file is opened. *)
Theorem main_read_failure :
  forall w args t tv e,
    validate_dns w args t = (Ret tt, tv) ->
    open_read w (input args) = Raises e ->
    isinstance e FileNotFoundError = false ->
    isinstance e Exception = true ->
    main w args t
    = (Exit 1%Z,
       (tv ++ [Print ("Reading hostnames from: " ++ input args);
               Eprint ("Error reading input: " ++ exn_str e)])%list).
Proof.
  intros w args t tv e Hvalid Hopen Hfnf He.
  rewrite main_steps. unfold bind at 1. rewrite Hvalid.
  unfold bind at 1, print at 1, emit at 1. unfold bind at 1.
  rewrite read_hostnames_cases, Hopen, Hfnf, He.
  now rewrite <- app_assoc.
Qed.

Lemma main_read_failure_witness :
  main sample_world (mkArgs "secret.txt" "out.txt" false None) []
  = (Exit 1%Z,
     [Print "Reading hostnames from: secret.txt";
      Eprint "Error reading input: [Errno 13] Permission denied"]).
Proof.
  apply (main_read_failure sample_world
           (mkArgs "secret.txt" "out.txt" false None) [] []
           (Exn PermissionError "[Errno 13] Permission denied"));
    reflexivity.
Defined.

(** *** Exit codes *)

Lemma exits1_no_exit :
  forall A (m : M A),
    (forall t c t', m t <> (Exit c, t')) -> exits_with_1 m.
Proof.
  intros A m H t c t' Hm. now destruct (H t c t').
Qed.

Lemma exits1_ret : forall A (a : A), exits_with_1 (ret a).
Proof. intros A a. apply exits1_no_exit. discriminate. Qed.

Lemma exits1_raise : forall A e, exits_with_1 (@raise A e).
Proof. intros A e. apply exits1_no_exit. discriminate. Qed.

Lemma exits1_emit : forall e, exits_with_1 (emit e).
Proof. intros e. apply exits1_no_exit. discriminate. Qed.

Lemma exits1_lift : forall A (r : answer A), exits_with_1 (lift r).
Proof. intros A [a|e]; [apply exits1_ret | apply exits1_raise]. Qed.

Lemma exits1_sys_exit : forall A, exits_with_1 (@sys_exit A 1%Z).
Proof. intros A t c t' [= <- _]. reflexivity. Qed.

Lemma exits1_bind :
  forall A B (m : M A) (f : A -> M B),
    exits_with_1 m -> (forall a, exits_with_1 (f a)) ->
    exits_with_1 (bind m f).
Proof.
  intros A B m f Hm Hf t c t' H. unfold bind in H.
  destruct (m t) as [[a|e|c0] t1] eqn:E.
  - exact (Hf a _ _ _ H).
  - discriminate.
  - injection H as <- <-. exact (Hm _ _ _ E).
Qed.

Lemma exits1_handle :
  forall A (cs : list (clause A)) e,
    Forall (fun cl => exits_with_1 (fst cl)
                      /\ forall e', exits_with_1 (snd cl e')) cs ->
    exits_with_1 (handle e cs).
Proof.
  intros A cs e H. induction H as [|[cexpr h] cs [Hc Hh] _ IH].
  - apply exits1_raise.
  - cbn [fst snd] in Hc, Hh. intros t c t' Hrun. cbn [handle] in Hrun.
    destruct (cexpr t) as [[k|e'|c0] t1] eqn:E.
    + destruct (isinstance e k);
        [exact (Hh e _ _ _ Hrun) | exact (IH _ _ _ Hrun)].
    + discriminate.
    + injection Hrun as <- <-. exact (Hc _ _ _ E).
Qed.

Lemma exits1_try_except :
  forall A (body : M A) (cs : list (clause A)),
    exits_with_1 body ->
    Forall (fun cl => exits_with_1 (fst cl)
                      /\ forall e', exits_with_1 (snd cl e')) cs ->
    exits_with_1 (try_except body cs).
Proof.
  intros A body cs Hb Hcs t c t' H. unfold try_except in H.
  destruct (body t) as [[a|e|c0] t1] eqn:E.
  - discriminate.
  - exact (exits1_handle _ cs e Hcs _ _ _ H).
  - injection H as <- <-. exact (Hb _ _ _ E).
Qed.

Lemma exits1_for_each :
  forall A (xs : list A) (body : A -> M unit),
    (forall x, exits_with_1 (body x)) -> exits_with_1 (for_each xs body).
Proof.
  intros A xs body H. induction xs as [|x xs IH]; cbn.
  - apply exits1_ret.
  - apply exits1_bind; auto.
Qed.

Ltac exits1 :=
  repeat first
    [ apply exits1_ret | apply exits1_raise | apply exits1_emit
    | apply exits1_lift | apply exits1_sys_exit
    | apply exits1_for_each; intros
    | apply exits1_bind; [| intros]
    | apply exits1_try_except
    | apply Forall_cons; [split; [| intros] |]
    | apply Forall_nil ].

Lemma fwrite_exits1 :
  forall w path s, exits_with_1 (fwrite w path s).
Proof.
  intros w path s. apply exits1_no_exit. intros t c t'. unfold fwrite, emit.
  destruct (write_error w t path s); discriminate.
Qed.

Lemma print_marked_exits1 :
  forall w s, exits_with_1 (print_marked w s).
Proof.
  intros w s. unfold print_marked, print.
  destruct (stdout_mark_error w); exits1.
Qed.

Lemma with_file_exits1 :
  forall w A path (body : M A),
    exits_with_1 body -> exits_with_1 (with_file w path body).
Proof.
  intros w A path body Hb. unfold with_file, fopen.
  apply exits1_bind.
  - destruct (open_write w path); exits1.
  - intros _ t c t' H.
    destruct (body t) as [[a|e|c0] t1] eqn:E;
      destruct (close_error w t1 path); try discriminate.
    injection H as <- <-. exact (Hb _ _ _ E).
Qed.

Lemma perform_dns_lookup_exits1 :
  forall w host dns_server,
    exits_with_1 (perform_dns_lookup w host dns_server).
Proof.
  intros w host dns_server.
  unfold perform_dns_lookup, dns_resolver_attr, first_answer.
  apply exits1_try_except.
  - destruct (py_bool dns_server && DNS_AVAILABLE w);
      [| destruct (py_bool dns_server && negb (DNS_AVAILABLE w))].
    + apply exits1_bind; [| intros [|a l]; exits1].
      unfold query_server.
      destruct (resolver_setup w (the dns_server)); [exits1 |].
      intros t c t' H. revert H. exits1.
    + exits1.
    + apply exits1_bind; [| intros; exits1].
      intros t c t' H. unfold query_system in H. revert H. exits1.
  - destruct (DNS_AVAILABLE w); cbn [fst snd]; exits1.
Qed.

Lemma lookup_loop_exits1 :
  forall w dns_server hostnames results,
    exits_with_1 (lookup_loop w dns_server hostnames results).
Proof.
  intros w dns_server hostnames.
  induction hostnames as [|host rest IH]; intros results; cbn [lookup_loop].
  - exits1.
  - apply exits1_bind; [apply perform_dns_lookup_exits1 | intros r].
    apply exits1_bind; [apply print_marked_exits1 | intros _]. apply IH.
Qed.

Lemma main_lookups_exits1 :
  forall w args, exits_with_1 (main_lookups w args).
Proof.
  intros w args.
  unfold main_lookups, validate_dns, read_hostnames, main_resolve, print,
    eprint.
  apply exits1_bind; [| intros _].
  { destruct (py_bool (dns args)); [| exits1].
    apply exits1_bind; [| intros _].
    - destruct (inet_aton w (the (dns args))); exits1.
    - destruct (negb (DNS_AVAILABLE w)); exits1. }
  apply exits1_bind; [exits1 | intros _].
  apply exits1_bind; [cbn [fst snd]; exits1 | intros hostnames].
  apply exits1_bind; [destruct hostnames; exits1 | intros _].
  apply exits1_bind; [exits1 | intros _].
  apply lookup_loop_exits1.
Qed.

Lemma write_results_exits1 :
  forall w results output_file verbose dns_server,
    exits_with_1 (write_results w results output_file verbose dns_server).
Proof.
  intros w results output_file verbose dns_server.
  unfold write_results, print, eprint.
  apply exits1_try_except; [| cbn [fst snd]; exits1].
  apply exits1_bind; [| intros _; exits1].
  apply with_file_exits1.
  apply exits1_bind; [apply fwrite_exits1 | intros _].
  apply exits1_bind;
    [destruct (py_bool dns_server); apply fwrite_exits1 | intros _].
  apply exits1_bind; [apply fwrite_exits1 | intros _].
  apply exits1_bind; [| intros _].
  { apply exits1_for_each. intros r.
    apply exits1_bind; [apply fwrite_exits1 | intros _].
    destruct verbose; exits1. }
  repeat (apply exits1_bind; [apply fwrite_exits1 | intros _]).
  apply fwrite_exits1.
Qed.

(** X15: once the arguments are parsed (lines 164-203), on every
    machine, [main] never falls off its end, and when it leaves through
    [sys.exit] the code is 0 or 1; every exit before the last line is an
    exit with 1.  An exception may still leave it. *)
Theorem main_exit_codes :
  forall w args t,
    match fst (main w args t) with
    | Ret _ => False
    | Exit code => code = 0%Z \/ code = 1%Z
    | Raise _ => True
    end.
Proof.
  intros w args t. unfold main. unfold bind at 1.
  destruct (main_lookups w args t) as [[results|e|c] t1] eqn:Hlook;
    cbn [fst]; auto.
  - unfold bind at 1.
    destruct (write_results w results (output args) (verbose args)
                (dns args) t1) as [[[]|e|c] t2] eqn:Hwrite; cbn [fst]; auto.
    + unfold sys_exit. cbn [fst].
      destruct (failed_count results =? 0)%Z; auto.
    + right. exact (write_results_exits1 _ _ _ _ _ _ _ _ Hwrite).
  - right. exact (main_lookups_exits1 _ _ _ _ _ Hlook).
Qed.

(** X12: whenever [write_results] returns, the last thing it wrote to
    the report is ["Failed: <n>"], where [n] is the count that [main]
    turns into the exit code; and whenever [main] exits with code 0, the
    report was written to the end and its last line is ["Failed: 0"]. *)
Theorem report_ends_with_failed_count :
  forall w args,
    (forall results t t',
        write_results w results (output args) (verbose args) (dns args) t
        = (Ret tt, t') ->
        last (file_writes (output args) t' []) ""
        = "Failed: " ++ str_of_int (failed_count results) ++ nl)
    /\ (forall t t',
           main w args t = (Exit 0%Z, t') ->
           last (file_writes (output args) t' []) "" = "Failed: 0" ++ nl).
Proof.
  intros w args.
  assert (Hlast : forall results t t',
             write_results w results (output args) (verbose args) (dns args) t
             = (Ret tt, t') ->
             last (file_writes (output args) t' []) ""
             = "Failed: " ++ str_of_int (failed_count results) ++ nl).
  { intros results t t' H. apply write_results_ret_inv in H as [_ ->].
    apply report_last_write. }
  split; [exact Hlast |].
  intros t t' H. unfold main in H. unfold bind at 1 in H.
  destruct (main_lookups w args t) as [[results|e|c] t1] eqn:Hlook.
  - unfold bind at 1 in H.
    destruct (write_results w results (output args) (verbose args)
                (dns args) t1) as [[[]|e|c] t2] eqn:Hwrite.
    + unfold sys_exit in H.
      destruct (failed_count results =? 0)%Z eqn:Hz; [| discriminate].
      injection H as <-. apply Z.eqb_eq in Hz.
      rewrite (Hlast _ _ _ Hwrite), Hz. reflexivity.
    + discriminate.
    + injection H as -> _.
      now pose proof (write_results_exits1 _ _ _ _ _ _ _ _ Hwrite).
  - discriminate.
  - injection H as -> _.
    now pose proof (main_lookups_exits1 _ _ _ _ _ Hlook).
Qed.

Lemma report_ends_with_failed_count_witness :
  last (file_writes "out.txt"
          (snd (main sample_world
                  (mkArgs "example.com" "out.txt" false None) []))
          [])
    ""
  = "Failed: 0" ++ nl.
Proof.
  exact (proj2 (report_ends_with_failed_count sample_world
                  (mkArgs "example.com" "out.txt" false None))
           [] _ eq_refl).
Defined.

(** *** A machine on which nothing unforeseen happens *)



Section RaisesOnly.

Variable Q : exn -> Prop.






Variable w : World.
Variable path : string.

Hypothesis Q_open : forall e, open_write w path = Some e -> Q e.
Hypothesis Q_write : forall t s e, write_error w t path s = Some e -> Q e.
Hypothesis Q_close : forall t e, close_error w t path = Some e -> Q e.




End RaisesOnly.






(** *** A server given, dnspython absent *)

Lemma queries_of_quiet :
  forall t d, Forall no_query d -> queries_of (t ++ d)%list = queries_of t.
Proof.
  intros t d H. rewrite queries_of_app.
  induction H as [|e d He _ IH]; [now rewrite app_nil_r|].
  destruct e; cbn; try exact IH. discriminate He.
Qed.

Lemma write_results_no_query :
  forall w results output_file verbose dns_server,
    emits no_query (write_results w results output_file verbose dns_server).
Proof.
  intros w results output_file verbose dns_server.
  apply write_results_emits_any; reflexivity.
Qed.

(** Without dnspython, with a server given, every lookup of the loop fails
    the same way and only the progress lines are printed. *)
Lemma lookup_loop_without_dnspython :
  forall w dns_server hostnames acc t,
    DNS_AVAILABLE w = false ->
    py_bool dns_server = true ->
    stdout_mark_error w = None ->
    lookup_loop w dns_server hostnames acc t
    = (Ret (acc ++ map dnspython_missing hostnames)%list,
       (t ++ map (fun h => Print (cross_mark ++ " " ++ h)) hostnames)%list).
Proof.
  intros w dns_server hostnames acc t Hdns Hsrv Hmark. revert acc t.
  induction hostnames as [|host rest IH]; intros acc t; cbn [lookup_loop map].
  - unfold ret. now rewrite !app_nil_r.
  - unfold bind at 1.
    assert (Hl : perform_dns_lookup w host dns_server t
                 = (Ret (dnspython_missing host), t)).
    { unfold_lookup. now rewrite Hsrv, Hdns. }
    rewrite Hl. unfold bind at 1, print_marked at 1. rewrite Hmark.
    unfold print at 1, emit at 1. cbn [success dnspython_missing].
    rewrite IH. now rewrite <- !app_assoc.
Qed.

(** The same loop when standard output cannot encode the marks: the first
    progress line raises. *)
Lemma lookup_loop_marks_fail :
  forall w dns_server host rest acc t e,
    DNS_AVAILABLE w = false ->
    py_bool dns_server = true ->
    stdout_mark_error w = Some e ->
    lookup_loop w dns_server (host :: rest) acc t = (Raise e, t).
Proof.
  intros w dns_server host rest acc t e Hdns Hsrv Hmark.
  cbn [lookup_loop]. unfold bind at 1.
  assert (Hl : perform_dns_lookup w host dns_server t
               = (Ret (dnspython_missing host), t)).
  { unfold_lookup. now rewrite Hsrv, Hdns. }
  rewrite Hl. unfold bind at 1, print_marked at 1. now rewrite Hmark.
Qed.

Lemma queries_of_prints :
  forall (f : string -> string) hostnames,
    queries_of (map (fun h => Print (f h)) hostnames) = [].
Proof.
  intros f hostnames. induction hostnames as [|h hs IH]; [reflexivity|].
  exact IH.
Qed.

(** [main] from a non-empty hostname list on, in that situation. *)
Lemma main_rest_without_dnspython :
  forall w args host rest t r t',
    DNS_AVAILABLE w = false ->
    py_bool (dns args) = true ->
    (results <- main_resolve w args (host :: rest) ;;
     write_results w results (output args) (verbose args) (dns args) ;;
     @sys_exit unit (if (failed_count results =? 0)%Z then 0%Z else 1%Z)) t
    = (r, t') ->
    r <> Exit 0%Z
    /\ queries_of t' = queries_of t
    /\ exists d, t' = (t ++ d)%list.
Proof.
  intros w args host rest t r t' Hdns Hsrv H.
  unfold main_resolve in H. unfold bind at 1 in H.
  unfold bind at 1, ret at 1 in H.
  unfold bind at 1, print at 1, emit at 1 in H.
  destruct (stdout_mark_error w) as [e|] eqn:Hmark.
  { rewrite (lookup_loop_marks_fail _ _ _ _ _ _ _ Hdns Hsrv Hmark) in H.
    injection H as <- <-. split; [discriminate | split; [| eauto]].
    now rewrite queries_of_app, app_nil_r. }
  rewrite (lookup_loop_without_dnspython _ _ _ _ _ Hdns Hsrv Hmark) in H.
  unfold bind at 1 in H.
  destruct (write_results w _ (output args) (verbose args) (dns args) _)
    as [[[]|e|c] t2] eqn:Hw in H.
  - unfold sys_exit in H. rewrite failed_count_zero in H.
    cbn [app map forallb success dnspython_missing andb] in H.
    injection H as <- <-.
    apply write_results_no_query in Hw as [d [-> Hd]].
    split; [discriminate | split].
    + rewrite (queries_of_quiet _ _ Hd), <- app_assoc, !queries_of_app.
      cbn [queries_of]. rewrite queries_of_prints. now rewrite app_nil_r.
    + rewrite <- !app_assoc. eauto.
  - injection H as <- <-.
    apply write_results_no_query in Hw as [d [-> Hd]].
    split; [discriminate | split].
    + rewrite (queries_of_quiet _ _ Hd), <- app_assoc, !queries_of_app.
      cbn [queries_of]. rewrite queries_of_prints. now rewrite app_nil_r.
    + rewrite <- !app_assoc. eauto.
  - injection H as <- <-.
    pose proof (write_results_exits1 _ _ _ _ _ _ _ _ Hw) as Hc.
    apply write_results_no_query in Hw as [d [-> Hd]].
    split; [subst c; discriminate | split].
    + rewrite (queries_of_quiet _ _ Hd), <- app_assoc, !queries_of_app.
      cbn [queries_of]. rewrite queries_of_prints. now rewrite app_nil_r.
    + rewrite <- !app_assoc. eauto.
Qed.

(** X17: with a valid [-d] server and dnspython absent, [main] announces
    on standard error that it falls back to system DNS, and then sends no
    query at all, neither to the server nor to the system resolver; such
    a run never exits with code 0. *)
Theorem custom_server_without_dnspython_run :
  forall w args server,
    DNS_AVAILABLE w = false ->
    dns args = Some server ->
    truthy server = true ->
    inet_aton w server = true ->
    In (Eprint ("Falling back to system DNS..." ++ nl))
      (snd (main w args []))
    /\ queries_of (snd (main w args [])) = []
    /\ fst (main w args []) <> Exit 0%Z.
Proof.
  intros w args server Hdns Hd Hsrv Hok.
  assert (Hb : py_bool (dns args) = true) by now rewrite Hd.
  destruct (main w args []) as [r tf] eqn:Hrun. cbn [fst snd].
  rewrite main_steps in Hrun. unfold bind at 1 in Hrun.
  assert (Hv : validate_dns w args []
               = (Ret tt,
                  [Eprint "Warning: dnspython library not installed.";
                   Eprint "Install it with: pip install dnspython";
                   Eprint ("Falling back to system DNS..." ++ nl)])).
  { unfold validate_dns, bind, eprint, emit, ret.
    rewrite Hb, Hd. cbn [the]. now rewrite Hok, Hdns. }
  rewrite Hv in Hrun.
  unfold bind at 1, print at 1, emit at 1 in Hrun. unfold bind at 1 in Hrun.
  rewrite read_hostnames_cases in Hrun.
  assert (Hrest :
            forall hostnames,
              (results <- main_resolve w args hostnames ;;
               write_results w results (output args) (verbose args)
                 (dns args) ;;
               @sys_exit unit
                 (if (failed_count results =? 0)%Z then 0%Z else 1%Z))
                ([Eprint "Warning: dnspython library not installed.";
                  Eprint "Install it with: pip install dnspython";
                  Eprint ("Falling back to system DNS..." ++ nl)]
                 ++ [Print ("Reading hostnames from: " ++ input args)])%list
              = (r, tf) ->
              In (Eprint ("Falling back to system DNS..." ++ nl)) tf
              /\ queries_of tf = [] /\ r <> Exit 0%Z).
  { intros [|host rest] H.
    - unfold main_resolve, bind, eprint, emit, sys_exit in H.
      injection H as <- <-. cbn. repeat split; [tauto | discriminate].
    - apply (main_rest_without_dnspython _ _ _ _ _ _ _ Hdns Hb) in H
        as [Hr [Hq [d ->]]].
      repeat split; [| exact Hq | exact Hr].
      apply in_or_app. left. cbn. tauto. }
  destruct (open_read w (input args)) as [content|e].
  - now apply Hrest in Hrun.
  - destruct (isinstance e FileNotFoundError);
      [now apply Hrest in Hrun |].
    destruct (isinstance e Exception); injection Hrun as <- <-;
      cbn; repeat split; try tauto; discriminate.
Qed.

Lemma custom_server_without_dnspython_run_witness :
  In (Eprint ("Falling back to system DNS..." ++ nl))
    (snd (main sample_world_no_dnspython
            (mkArgs "hosts.txt" "out.txt" false (Some "8.8.8.8")) []))
  /\ queries_of
       (snd (main sample_world_no_dnspython
               (mkArgs "hosts.txt" "out.txt" false (Some "8.8.8.8")) []))
     = []
  /\ fst (main sample_world_no_dnspython
            (mkArgs "hosts.txt" "out.txt" false (Some "8.8.8.8")) [])
     <> Exit 0%Z.
Proof.
  exact (custom_server_without_dnspython_run sample_world_no_dnspython
           (mkArgs "hosts.txt" "out.txt" false (Some "8.8.8.8")) "8.8.8.8"
           eq_refl eq_refl eq_refl eq_refl).
Defined.

(** *** From the hostnames read to the results *)

(** X18: when [main] reaches the end of its lookups, the results are one
    per hostname that [read_hostnames] returned, in the same order, and
    there is at least one. *)
Theorem results_follow_input :
  forall w args t results t1,
    main_lookups w args t = (Ret results, t1) ->
    exists tv hostnames,
      validate_dns w args t = (Ret tt, tv)
      /\ read_hostnames w (input args)
           (tv ++ [Print ("Reading hostnames from: " ++ input args)])%list
         = (Ret hostnames,
            (tv ++ [Print ("Reading hostnames from: " ++ input args)])%list)
      /\ hostnames <> []
      /\ map hostname results = hostnames.
Proof.
  intros w args t results t1 H.
  unfold main_lookups in H. unfold bind at 1 in H.
  destruct (validate_dns w args t) as [[[]|e|c] tv]; try discriminate.
  unfold bind at 1, print at 1, emit at 1 in H. unfold bind at 1 in H.
  exists tv.
  assert (Hsame : forall hostnames t0 t0',
             read_hostnames w (input args) t0 = (Ret hostnames, t0') ->
             t0' = t0).
  { intros hostnames t0 t0'. rewrite read_hostnames_cases.
    destruct (open_read w (input args)) as [content|e];
      [now intros [= _ <-] |].
    destruct (isinstance e FileNotFoundError); [now intros [= _ <-] |].
    destruct (isinstance e Exception); discriminate. }
  destruct (read_hostnames w (input args) _) as [[hostnames|e|c] t2] eqn:Hr;
    try discriminate.
  pose proof (Hsame _ _ _ Hr) as ->.
  exists hostnames. split; [reflexivity | split; [reflexivity |]].
  unfold main_resolve in H. unfold bind at 1 in H.
  destruct hostnames as [|host rest]; [discriminate |].
  unfold ret at 1 in H. unfold bind at 1, print at 1, emit at 1 in H.
  apply lookup_loop_trace in H as [rs [-> [Hmap _]]].
  split; [discriminate | exact Hmap].
Qed.

Lemma results_follow_input_witness :
  exists tv hostnames,
    validate_dns sample_world (mkArgs "hosts.txt" "out.txt" false None) []
    = (Ret tt, tv)
    /\ read_hostnames sample_world "hosts.txt"
         (tv ++ [Print "Reading hostnames from: hosts.txt"])%list
       = (Ret hostnames,
          (tv ++ [Print "Reading hostnames from: hosts.txt"])%list)
    /\ hostnames <> []
    /\ map hostname
         [mkResult "example.com" "93.184.216.34" true;
          mkResult "www.example.org" "93.184.216.35" true;
          mkResult "gone.invalid"
            "Error: [Errno -2] Name or service not known" false]
       = hostnames.
Proof.
  exact (results_follow_input sample_world
           (mkArgs "hosts.txt" "out.txt" false None) [] _ _ eq_refl).
Defined.

(** *** Without dnspython and without a server *)

(** X19: with dnspython absent and no server given, a name the system
    resolver resolves gives a successful result as usual; a name it fails
    on, with whatever exception, makes the call raise [NameError], and
    the resolver's own exception and message are lost. *)
Theorem system_lookup_without_dnspython :
  forall w host dns_server t,
    DNS_AVAILABLE w = false ->
    py_bool dns_server = false ->
    perform_dns_lookup w host dns_server t
    = (match gethostbyname w t host with
       | Returns address => Ret (mkResult host address true)
       | Raises _ => Raise (Exn NameError "name 'dns' is not defined")
       end,
       (t ++ [Query host None])%list).
Proof.
  intros w host dns_server t Hdns Hsrv.
  destruct (gethostbyname w t host) as [a|e] eqn:Hg.
  - unfold_lookup. rewrite Hsrv, Hdns. cbn. now rewrite Hg.
  - exact (system_failure_without_dnspython w host dns_server t e
             Hdns Hsrv Hg).
Qed.

Lemma system_lookup_without_dnspython_witness :
  perform_dns_lookup sample_world_no_dnspython "example.com" None []
  = (Ret (mkResult "example.com" "93.184.216.34" true),
     [Query "example.com" None]).
Proof.
  exact (system_lookup_without_dnspython sample_world_no_dnspython
           "example.com" None [] eq_refl eq_refl).
Defined.
